(** * Cost-ingestion Lambda: savings estimate, recommendations, trend, report

    A shallow embedding of the computational core of
    [lambda/cost_ingestion/handler.py], [utils/cost_explorer.py] and
    [utils/resource_scanner.py]:

    - [calculate_potential_savings]  (handler.py)
    - [generate_recommendations]     (handler.py)
    - the report built by [lambda_handler] (handler.py)
    - [get_cost_trends], [_get_top_services] (utils/cost_explorer.py)
    - [scan_all_resources]           (utils/resource_scanner.py)

    Python [float]s are IEEE-754 binary64 numbers.  They are modelled by
    the Standard Library's executable specification [spec_float] at
    precision 53 and maximal exponent 1024, with round-to-nearest-even,
    so that sums, products and comparisons are those CPython computes.
    Python exceptions are modelled by an error monad. *)

From Stdlib Require Import ZArith Lia Floats.SpecFloat Sorting.Sorted.
From stdpp Require Import base tactics option list gmap strings pretty.

Local Open Scope Z_scope.

(** ** Python floats *)

Module PyFloat.

Abbreviation float := spec_float.

Definition prec : Z := 53.
Definition emax : Z := 1024.

(** The exponent of the least subnormal, [3 - emax - prec]. *)
Definition emin : Z := -1074.

Definition add : float → float → float := SFadd prec emax.
Definition sub : float → float → float := SFsub prec emax.
Definition mul : float → float → float := SFmul prec emax.
Definition div : float → float → float := SFdiv prec emax.

(** [x < y], [x <= y] and [x == y]; all three are false on a NaN. *)
Definition ltb : float → float → bool := SFltb.
Definition leb : float → float → bool := SFleb.
Definition eqb : float → float → bool := SFeqb.

(** The float nearest to an integer (ties to even); infinite when the
    integer is out of range. *)
Definition of_Z (z : Z) : float := binary_normalize prec emax z 0 false.

(** The float denoted by a decimal literal with [k] digits after the
    point, [n] being the literal read without its point: [lit 365 2] is
    [3.65].  Both [n] and [10^k] are exactly representable for the
    literals of the source, and the division rounds correctly, so this
    is the float nearest to the decimal. *)
Definition lit (n : Z) (k : nat) : float := div (of_Z n) (of_Z (10 ^ Z.of_nat k)).

Definition zero : float := S754_zero false.

Definition is_nan (x : float) : bool :=
  match x with S754_nan => true | _ => false end.

Definition is_zero (x : float) : bool :=
  match x with S754_zero _ => true | _ => false end.

(** Round-half-even of the rational [num / den] ([den > 0]) to an
    integer. *)
Definition round_half_even (num den : Z) : Z :=
  let q := num `div` den in
  let r := num `mod` den in
  match 2 * r ?= den with
  | Lt => q
  | Gt => q + 1
  | Eq => if Z.even q then q else q + 1
  end.

(** [round(x, ndigits)] for a float [x] and [ndigits >= 0].  CPython
    prints the exact binary value of [x] rounded half-even to [ndigits]
    decimals, and reads the decimal string back as the nearest float.
    Zeros, infinities and NaN round to themselves. *)
Definition round (x : float) (ndigits : nat) : float :=
  match x with
  | S754_finite s m e =>
      let scale := 10 ^ Z.of_nat ndigits in
      let n :=
        match e with
        | Zneg p => round_half_even (Zpos m * scale) (Z.pow_pos 2 p)
        | _ => Zpos m * 2 ^ e * scale
        end in
      match n, scale with
      | Zpos n', Zpos scale' => div (S754_finite s n' 0) (S754_finite false scale' 0)
      | _, _ => S754_zero s
      end
  | _ => x
  end.

End PyFloat.

Abbreviation float := PyFloat.float.

(** ** Python exceptions *)

Inductive exn :=
  | TypeError | OverflowError | ZeroDivisionError | ValueError | KeyError
  | ClientError.

Inductive outcome (A : Type) :=
  | Return (a : A)
  | Raise (e : exn).
Arguments Return {A} a.
Arguments Raise {A} e.

#[global] Instance outcome_ret : MRet outcome := λ A, @Return A.
#[global] Instance outcome_bind : MBind outcome := λ A B f m,
  match m with Return a => f a | Raise e => Raise e end.

(** [for x in l: s = body(s, x)], stopping at the first exception. *)
Fixpoint for_each {A S : Type} (body : S → A → outcome S) (l : list A) (s : S) : outcome S :=
  match l with
  | [] => Return s
  | x :: l' => s' ← body s x; for_each body l' s'
  end.

(** ** Python numbers and attribute values *)

(** A number that is an [int] or a [float]. *)
Inductive pynum :=
  | PyInt (z : Z)
  | PyFlt (x : float).

(** [float(n)] for an [int]: the nearest float, [OverflowError] when that
    is not finite. *)
Definition float_of_int (n : Z) : outcome float :=
  match PyFloat.of_Z n with
  | S754_infinity _ => Raise OverflowError
  | x => Return x
  end.

(** [float(len(l))].  A list has fewer than [2^63] items, so this
    conversion never overflows in CPython and carries no exception. *)
Definition float_of_len (n : nat) : float := PyFloat.of_Z (Z.of_nat n).

(** [x / y] on floats. *)
Definition truediv (x y : float) : outcome float :=
  if PyFloat.is_zero y then Raise ZeroDivisionError else Return (PyFloat.div x y).

(** [round(v, ndigits)]: an [int] is returned unchanged for [ndigits >= 0]. *)
Definition round_num (v : pynum) (ndigits : nat) : pynum :=
  match v with
  | PyInt z => PyInt z
  | PyFlt x => PyFlt (PyFloat.round x ndigits)
  end.

(** The value of a key of a resource record, as the scanners fill them:
    strings and integers. *)
Inductive attr :=
  | AStr (s : string)
  | AInt (n : Z).

(** [a * x] for an attribute [a] and a float [x]. *)
Definition attr_mul_float (a : attr) (x : float) : outcome float :=
  match a with
  | AInt n => y ← float_of_int n; Return (PyFloat.mul y x)
  | AStr _ => Raise TypeError
  end.

(** [d.get(k, dflt)] on a price table keyed by strings. *)
Definition price_get (d : gmap string float) (k : attr) (dflt : float) : float :=
  match k with
  | AStr s => default dflt (d !! s)
  | AInt _ => dflt
  end.

(** ** handler.py: calculate_potential_savings *)

Definition ec2_pricing : gmap string float :=
  list_to_map
    [ ("t3.micro", PyFloat.lit 100 1); ("t3.small", PyFloat.lit 150 1);
      ("t3.medium", PyFloat.lit 300 1); ("t3.large", PyFloat.lit 600 1);
      ("t3.xlarge", PyFloat.lit 1200 1) ]%string.

Definition ebs_pricing : gmap string float :=
  list_to_map
    [ ("gp3", PyFloat.lit 8 2); ("gp2", PyFloat.lit 10 2);
      ("io1", PyFloat.lit 125 3); ("st1", PyFloat.lit 45 3) ]%string.

Definition rds_instance_pricing : gmap string float :=
  list_to_map
    [ ("db.t3.micro", PyFloat.lit 150 1); ("db.t3.small", PyFloat.lit 300 1);
      ("db.t3.medium", PyFloat.lit 600 1); ("db.t3.large", PyFloat.lit 1200 1) ]%string.

(** [idle_resources.get(key, [])]. *)
Definition get_list (idle_resources : gmap string (list (gmap string attr)))
    (key : string) : list (gmap string attr) :=
  default [] (idle_resources !! key).

(** Body of the loop over [ec2_stopped]. *)
Definition ec2_step (total_savings : float) (instance : gmap string attr) : float :=
  let instance_type := default (AStr "t3.medium") (instance !! "type"%string) in
  PyFloat.add total_savings (price_get ec2_pricing instance_type (PyFloat.lit 300 1)).

(** Body of the loop over [ebs_unattached]. *)
Definition ebs_step (total_savings : float) (volume : gmap string attr) : outcome float :=
  let size_gb := default (AInt 100) (volume !! "size"%string) in
  let volume_type := default (AStr "gp3") (volume !! "type"%string) in
  let price_per_gb := price_get ebs_pricing volume_type (PyFloat.lit 8 2) in
  cost ← attr_mul_float size_gb price_per_gb;
  Return (PyFloat.add total_savings cost).

(** Body of the loop over [rds_stopped]. *)
Definition rds_step (total_savings : float) (db : gmap string attr) : outcome float :=
  let instance_class := default (AStr "db.t3.medium") (db !! "instance_class"%string) in
  let storage_gb := default (AInt 100) (db !! "storage"%string) in
  let instance_cost := price_get rds_instance_pricing instance_class (PyFloat.lit 600 1) in
  storage_cost ← attr_mul_float storage_gb (PyFloat.lit 115 3);
  Return (PyFloat.add total_savings (PyFloat.add instance_cost storage_cost)).

Definition calculate_potential_savings
    (idle_resources : gmap string (list (gmap string attr))) : outcome float :=
  let total_savings := PyFloat.lit 0 1 in
  let total_savings :=
    fold_left ec2_step (get_list idle_resources "ec2_stopped") total_savings in
  total_savings ← for_each ebs_step (get_list idle_resources "ebs_unattached") total_savings;
  let total_savings :=
    PyFloat.add total_savings
      (PyFloat.mul (float_of_len (length (get_list idle_resources "eip_unassociated")))
                   (PyFloat.lit 365 2)) in
  total_savings ← for_each rds_step (get_list idle_resources "rds_stopped") total_savings;
  let total_savings :=
    PyFloat.add total_savings
      (PyFloat.mul (float_of_len (length (get_list idle_resources "elb_unused")))
                   (PyFloat.lit 180 1)) in
  Return (PyFloat.round total_savings 2).


(** ** handler.py: generate_recommendations *)

Record Recommendation := mkRecommendation {
  priority : string;
  category : string;
  title : string;
  impact : string;
  action : string
}.

(** The dictionary returned by [get_cost_by_service].  [services] is a
    [dict]: its items come in insertion order and its keys are distinct.
    The key may be absent from a dictionary built elsewhere, which
    [service_costs.get('services', {})] allows for. *)
Record ServiceCosts := mkServiceCosts {
  services : option (list (string * float));
  top_5_services : list (string * float)
}.

(** [sorted(items, key=lambda x: x[1], reverse=True)].  Python's sort is
    stable also when reversed: items of equal cost keep their order.
    Insertion from the right, each item going before the first one that is
    not greater, is the stable descending sort; on costs that are not NaN
    every stable sort returns this list. *)
Fixpoint insert_by_cost (x : string * float) (l : list (string * float)) : list (string * float) :=
  match l with
  | [] => [x]
  | y :: l' => if PyFloat.ltb x.2 y.2 then y :: insert_by_cost x l' else x :: l
  end.

Definition sorted_by_cost_reverse (items : list (string * float)) : list (string * float) :=
  foldr insert_by_cost [] items.

(** The truth value of [idle_resources.get(key)]: a non-empty list. *)
Definition non_empty (idle_resources : gmap string (list (gmap string attr)))
    (key : string) : bool :=
  match idle_resources !! key with
  | Some (_ :: _) => true
  | _ => false
  end.

Section Formatting.

(** How an f-string prints a float: [str_float x] is [f"{x}"] and
    [format_2f x] is [f"{x:.2f}"].  The digits they produce play no
    role below. *)
Variable str_float : float → string.
Variable format_2f : float → string.

Definition ec2_recommendation (n : nat) : Recommendation :=
  {| priority := "HIGH";
     category := "Idle Resources";
     title := "Terminate " +:+ pretty n +:+ " stopped EC2 instances";
     impact := "~$" +:+ pretty (n * 30)%nat +:+ "/month";
     action := "Review and terminate unused instances or convert to reserved instances" |}.

Definition ebs_recommendation (n : nat) : Recommendation :=
  {| priority := "MEDIUM";
     category := "Storage Optimization";
     title := "Delete " +:+ pretty n +:+ " unattached EBS volumes";
     impact := "~$" +:+ pretty (n * 10)%nat +:+ "/month";
     action := "Create snapshots if needed, then delete volumes" |}.

Definition eip_recommendation (n : nat) : Recommendation :=
  {| priority := "LOW";
     category := "Network Optimization";
     title := "Release " +:+ pretty n +:+ " unassociated Elastic IPs";
     impact := "~$" +:+ str_float (PyFloat.mul (float_of_len n) (PyFloat.lit 365 2))
                    +:+ "/month";
     action := "Release unused Elastic IPs immediately" |}.

Definition service_recommendation (service : string) (cost : float) : Recommendation :=
  {| priority := "MEDIUM";
     category := "Cost Review";
     title := "Review " +:+ service +:+ " spending ($" +:+ format_2f cost +:+ "/month)";
     impact := "Variable";
     action := "Analyze " +:+ service +:+ " usage patterns for optimization opportunities" |}.

(** Body of the loop over [top_services]. *)
Definition service_step (recommendations : list Recommendation)
    (item : string * float) : list Recommendation :=
  let '(service, cost) := item in
  if PyFloat.ltb (PyFloat.of_Z 100) cost
  then recommendations ++ [service_recommendation service cost]
  else recommendations.

Definition generate_recommendations
    (idle_resources : gmap string (list (gmap string attr)))
    (service_costs : ServiceCosts) : list Recommendation :=
  let recommendations := [] in
  let recommendations :=
    if non_empty idle_resources "ec2_stopped"
    then recommendations ++
           [ec2_recommendation (length (get_list idle_resources "ec2_stopped"))]
    else recommendations in
  let recommendations :=
    if non_empty idle_resources "ebs_unattached"
    then recommendations ++
           [ebs_recommendation (length (get_list idle_resources "ebs_unattached"))]
    else recommendations in
  let recommendations :=
    if non_empty idle_resources "eip_unassociated"
    then recommendations ++
           [eip_recommendation (length (get_list idle_resources "eip_unassociated"))]
    else recommendations in
  let top_services :=
    take 3 (sorted_by_cost_reverse (default [] (services service_costs))) in
  match top_services with
  | [] => recommendations
  | _ => fold_left service_step top_services recommendations
  end.

End Formatting.

(** ** utils/cost_explorer.py *)

(** [_get_top_services]: a list of [{'service': ..., 'cost': ...}]. *)
Definition _get_top_services (services : list (string * float)) (top_n : nat)
    : list (string * float) :=
  let sorted_services := take top_n (sorted_by_cost_reverse services) in
  (λ '(service, cost), (service, cost)) <$> sorted_services.

(** The Cost Explorer client, as [get_cost_trends] uses it: a query for a
    period, given by the day numbers of its two dates, raises or returns
    the [ResultsByTime] list; [float(result['Total']['UnblendedCost']
    ['Amount'])] raises or returns for each result. *)
Record CostExplorerClient := mkClient {
  get_cost_and_usage : Z → Z → outcome (list (outcome float))
}.

(** [datetime.fromisoformat] on a date string, which is given by the day
    number it denotes, or by [None] when it is not an ISO date. *)
Definition fromisoformat (date : option Z) : outcome Z :=
  match date with
  | Some d => Return d
  | None => Raise ValueError
  end.

Record CostTrend := mkCostTrend {
  current_period : float;
  previous_period : float;
  delta_absolute : float;
  delta_percent : pynum;
  trend : string
}.

(** What [get_cost_trends] returns: the trend, or the dictionary with the
    keys [current_period] and [error] only. *)
Inductive trend_result :=
  | Trend (t : CostTrend)
  | TrendError (current : float) (error : string).

(** Body of the loop that adds up the previous period. *)
Definition prev_step (prev_cost : float) (result : outcome float) : outcome float :=
  amount ← result; Return (PyFloat.add prev_cost amount).

(** The first part of the [try] block: the previous period and its cost. *)
Definition previous_cost (self : CostExplorerClient) (start_date end_date : option Z)
    : outcome float :=
  end_dt ← fromisoformat end_date;
  start_dt ← fromisoformat start_date;
  let duration := end_dt - start_dt in
  let prev_end := start_dt - 1 in
  let prev_start := prev_end - duration in
  prev_response ← get_cost_and_usage self prev_start prev_end;
  for_each prev_step prev_response (PyFloat.lit 0 1).

(** The second part of the [try] block: the deltas and the dictionary. *)
Definition cost_trend (current_cost prev_cost : float) : outcome CostTrend :=
  let delta_absolute := PyFloat.sub current_cost prev_cost in
  delta_percent ←
    (if PyFloat.ltb (PyFloat.of_Z 0) prev_cost
     then q ← truediv delta_absolute prev_cost;
          Return (PyFlt (PyFloat.mul q (PyFloat.of_Z 100)))
     else Return (PyInt 0));
  Return {| current_period := PyFloat.round current_cost 2;
            previous_period := PyFloat.round prev_cost 2;
            delta_absolute := PyFloat.round delta_absolute 2;
            delta_percent := round_num delta_percent 2;
            trend := if PyFloat.ltb (PyFloat.of_Z 0) delta_absolute
                     then "increasing" else "decreasing" |}.

Definition get_cost_trends (self : CostExplorerClient) (current_cost : float)
    (start_date end_date : option Z) : trend_result :=
  match prev_cost ← previous_cost self start_date end_date;
        cost_trend current_cost prev_cost with
  | Return t => Trend t
  | Raise _ =>
      TrendError (PyFloat.round current_cost 2) "Unable to calculate trend data"
  end.

(** ** utils/resource_scanner.py: scan_all_resources *)

(** The dictionary built from the results of the five scans. *)
Definition scan_all_resources (ec2 ebs eip rds elb : list (gmap string attr))
    : gmap string (list (gmap string attr)) :=
  list_to_map
    [ ("ec2_stopped", ec2); ("ebs_unattached", ebs); ("eip_unassociated", eip);
      ("rds_stopped", rds); ("elb_unused", elb) ]%string.

(** ** handler.py: the report of lambda_handler *)

Record CostData := mkCostData {
  cost_data_total_cost : float;
  daily_costs : list (string * float);
  currency : string
}.

Record Summary := mkSummary {
  total_cost : float;
  idle_resources_count : nat;
  potential_savings : float
}.

Record Report := mkReport {
  timestamp : string;
  date : string;
  environment : string;
  summary : Summary;
  cost_data : CostData;
  service_breakdown : ServiceCosts;
  idle_resources : gmap string (list (gmap string attr));
  trends : trend_result;
  recommendations : list Recommendation
}.

(** [sum(len(v) for v in idle_resources.values())] *)
Definition count_idle (idle_resources : gmap string (list (gmap string attr))) : nat :=
  map_fold (λ _ v n, (length v + n)%nat) 0%nat idle_resources.

Section Report.

Variable str_float : float → string.
Variable format_2f : float → string.

(** Step 5 of [lambda_handler]: the report, from the results of steps 1
    to 4, the two clock readings and the environment name.  An exception
    of [calculate_potential_savings] leaves no report. *)
Definition build_report (now end_date ENVIRONMENT : string)
    (cost_data : CostData) (service_costs : ServiceCosts)
    (idle_resources : gmap string (list (gmap string attr)))
    (cost_trends : trend_result) : outcome Report :=
  savings ← calculate_potential_savings idle_resources;
  Return {| timestamp := now;
            date := end_date;
            environment := ENVIRONMENT;
            summary := {| total_cost := cost_data_total_cost cost_data;
                          idle_resources_count := count_idle idle_resources;
                          potential_savings := savings |};
            cost_data := cost_data;
            service_breakdown := service_costs;
            idle_resources := idle_resources;
            trends := cost_trends;
            recommendations :=
              generate_recommendations str_float format_2f idle_resources service_costs |}.

End Report.

(** * Vocabulary of the statements *)

(** ** Magnitudes of floats *)

(** [pos_ge k x]: [x] is [+inf], or a positive finite float with an
    exponent the format allows and [x >= 2^(k-1)]. *)
Definition pos_ge (k : Z) (x : float) : Prop :=
  x = S754_infinity false
  ∨ ∃ m e, x = S754_finite false m e
           ∧ PyFloat.emin ≤ e ∧ k ≤ Z.log2 (Z.pos m) + 1 + e.

(** [x] is [+0.0], positive or [+inf]. *)
Definition nonneg (x : float) : Prop :=
  x = S754_zero false ∨ pos_ge (PyFloat.emin + 1) x.

(** [pos_ge] on finite floats, decided. *)
Definition pos_geb (k : Z) (x : float) : bool :=
  match x with
  | S754_finite false m e => (PyFloat.emin <=? e) && (k <=? Z.log2 (Z.pos m) + 1 + e)
  | _ => false
  end.

(** The same float, sign of zero included. *)
Definition same_float (x y : float) : bool :=
  match x, y with
  | S754_zero s, S754_zero s' => Bool.eqb s s'
  | S754_infinity s, S754_infinity s' => Bool.eqb s s'
  | S754_nan, S754_nan => true
  | S754_finite s m e, S754_finite s' m' e' =>
      Bool.eqb s s' && (m =? m')%positive && (e =? e')
  | _, _ => false
  end.

(** The integer part of a positive float. *)
Definition whole (x : float) : Z :=
  match x with
  | S754_finite false m e => Z.shiftl (Z.pos m) e
  | _ => 0
  end.

(** A price in whole dollars, from 1 to 120. *)
Definition whole_dollars (x : float) : bool :=
  same_float x (PyFloat.of_Z (whole x)) && (0 <? whole x) && (whole x <=? 120).

(** ** Inventories *)

Definition is_nil {A : Type} (l : list A) : bool :=
  match l with [] => true | _ => false end.

(** The keys [scan_all_resources] fills. *)
Definition fixed_categories : gset string :=
  {[ "ec2_stopped"; "ebs_unattached"; "eip_unassociated"; "rds_stopped";
     "elb_unused" ]}%string.

Definition all_empty (idle_resources : gmap string (list (gmap string attr))) : Prop :=
  get_list idle_resources "ec2_stopped" = []
  ∧ get_list idle_resources "ebs_unattached" = []
  ∧ get_list idle_resources "eip_unassociated" = []
  ∧ get_list idle_resources "rds_stopped" = []
  ∧ get_list idle_resources "elb_unused" = [].

Definition no_items (idle_resources : gmap string (list (gmap string attr))) : bool :=
  is_nil (get_list idle_resources "ec2_stopped")
  && is_nil (get_list idle_resources "ebs_unattached")
  && is_nil (get_list idle_resources "eip_unassociated")
  && is_nil (get_list idle_resources "rds_stopped")
  && is_nil (get_list idle_resources "elb_unused").

(** A size, when the record has one, is a positive [int] that [float]
    converts. *)
Definition size_ok (o : option attr) : Prop :=
  match o with
  | None => True
  | Some (AInt n) => 0 < n ∧ float_of_int n = Return (PyFloat.of_Z n)
  | Some (AStr _) => False
  end.

Definition well_formed (idle_resources : gmap string (list (gmap string attr))) : Prop :=
  Forall (λ volume, size_ok (volume !! "size"%string))
         (get_list idle_resources "ebs_unattached")
  ∧ Forall (λ db, size_ok (db !! "storage"%string))
           (get_list idle_resources "rds_stopped").

(** The running total of [calculate_potential_savings] is [0.0] as long
    as every list met so far was empty, and at least [2^-5] afterwards. *)
Definition track (empty_so_far : bool) (total : float) : Prop :=
  if empty_so_far then total = PyFloat.zero else pos_ge (-4) total.

(** The price the EC2 loop adds for an instance, and the sum of these
    prices over a list, in dollars. *)
Definition ec2_price (instance : gmap string attr) : float :=
  price_get ec2_pricing (default (AStr "t3.medium") (instance !! "type"%string))
    (PyFloat.lit 300 1).

Definition ec2_total (l : list (gmap string attr)) : Z :=
  foldr (λ instance s, whole (ec2_price instance) + s) 0 l.

(** ** Recommendations *)

(** [a] is not cheaper than [b]. *)
Definition cost_ge (a b : string * float) : Prop := PyFloat.ltb a.2 b.2 = false.

Definition has_cost (c : float) (kv : string * float) : bool := PyFloat.eqb kv.2 c.

Definition no_nan (items : list (string * float)) : Prop :=
  Forall (λ kv, PyFloat.is_nan kv.2 = false) items.

Definition over_100 (kv : string * float) : bool := PyFloat.ltb (PyFloat.of_Z 100) kv.2.

(** The recommendations of the three [if] blocks. *)
Definition idle_recommendations (str_float : float → string)
    (idle_resources : gmap string (list (gmap string attr))) : list Recommendation :=
  (if non_empty idle_resources "ec2_stopped"
   then [ec2_recommendation (length (get_list idle_resources "ec2_stopped"))] else [])
  ++ (if non_empty idle_resources "ebs_unattached"
      then [ebs_recommendation (length (get_list idle_resources "ebs_unattached"))] else [])
  ++ (if non_empty idle_resources "eip_unassociated"
      then [eip_recommendation str_float (length (get_list idle_resources "eip_unassociated"))]
      else []).

(** The recommendations of the loop over [top_services]. *)
Definition service_recommendations (format_2f : float → string)
    (top_services : list (string * float)) : list Recommendation :=
  (λ kv, service_recommendation format_2f kv.1 kv.2) <$> List.filter over_100 top_services.

Definition count_category (c : string) (l : list Recommendation) : nat :=
  length (List.filter (λ r, String.eqb (category r) c) l).

Definition b2n (b : bool) : nat := if b then 1%nat else 0%nat.

(** ** Sample inputs *)

Definition ec2_instance (type : string) : gmap string attr :=
  {[ "type"%string := AStr type ]}.

Definition ebs_volume (size : Z) (type : string) : gmap string attr :=
  <["size"%string := AInt size]> {[ "type"%string := AStr type ]}.

(** The estimator scenario: one [t3.medium], one 100 GB [gp3] volume, one
    address. *)
Definition example_inventory : gmap string (list (gmap string attr)) :=
  scan_all_resources [ec2_instance "t3.medium"] [ebs_volume 100 "gp3"] [∅] [] [].

Definition nothing_idle : gmap string (list (gmap string attr)) :=
  scan_all_resources [] [] [] [] [].

Definition empty_records : gmap string (list (gmap string attr)) :=
  scan_all_resources [∅] [∅] [∅] [∅] [∅].

Definition stopped_database_only : gmap string (list (gmap string attr)) :=
  scan_all_resources [] [] [] [∅] [].

Definition only_volumes (l : list (gmap string attr))
    : gmap string (list (gmap string attr)) :=
  scan_all_resources [] l [] [] [].

(** Three 1 GB volumes, in two orders. *)
Definition volumes_a : list (gmap string attr) :=
  [ebs_volume 1 "gp3"; ebs_volume 1 "gp2"; ebs_volume 1 "st1"].

Definition volumes_b : list (gmap string attr) :=
  [ebs_volume 1 "st1"; ebs_volume 1 "gp2"; ebs_volume 1 "gp3"].

(** Three [db.t3.micro] databases of 1, 1 and 7 GB, in two orders. *)
Definition rds_database (class : string) (storage : Z) : gmap string attr :=
  <["storage"%string := AInt storage]> {[ "instance_class"%string := AStr class ]}.

Definition databases_a : list (gmap string attr) :=
  [rds_database "db.t3.micro" 1; rds_database "db.t3.micro" 1;
   rds_database "db.t3.micro" 7].

Definition databases_b : list (gmap string attr) :=
  [rds_database "db.t3.micro" 7; rds_database "db.t3.micro" 1;
   rds_database "db.t3.micro" 1].

Definition only_databases (l : list (gmap string attr))
    : gmap string (list (gmap string attr)) :=
  scan_all_resources [] [] [] l [].

Definition huge_volume : gmap string (list (gmap string attr)) :=
  only_volumes [ebs_volume (2 ^ 1024) "gp3"].

Definition two_instances : gmap string (list (gmap string attr)) :=
  scan_all_resources [∅; ec2_instance "t3.large"] volumes_a [] [] [].

(** The recommendation scenario: [{EC2: 150, RDS: 80, S3: 20}]. *)
Definition example_costs : ServiceCosts :=
  {| services :=
       Some [("EC2", PyFloat.lit 150 0); ("RDS", PyFloat.lit 80 0);
             ("S3", PyFloat.lit 20 0)]%string;
     top_5_services :=
       _get_top_services
         [("EC2", PyFloat.lit 150 0); ("RDS", PyFloat.lit 80 0);
          ("S3", PyFloat.lit 20 0)]%string 5 |}.

Definition no_service_costs : ServiceCosts :=
  {| services := Some []; top_5_services := [] |}.

Definition example_cost_data : CostData :=
  {| cost_data_total_cost := PyFloat.lit 24532 2; daily_costs := []; currency := "USD" |}.

(** A client whose query returns the given amounts, and one whose query
    fails. *)
Definition flat_client (amounts : list (outcome float)) : CostExplorerClient :=
  {| get_cost_and_usage := λ _ _, Return amounts |}.

Definition failing_client : CostExplorerClient :=
  {| get_cost_and_usage := λ _ _, Raise ClientError |}.

(** Formatting that prints no digits, for the instances below. *)
Definition no_digits (x : float) : string := "#".

(** ** Tactics *)

Ltac compare_cases :=
  repeat match goal with
    | |- context [Z.compare ?a ?b] => destruct (Z.compare_spec a b)
    | H : context [Z.compare ?a ?b] |- _ => destruct (Z.compare_spec a b)
    | |- context [Pos.compare_cont Eq ?a ?b] =>
        change (Pos.compare_cont Eq a b) with (Pos.compare a b);
        destruct (Pos.compare_spec a b)
    | H : context [Pos.compare_cont Eq ?a ?b] |- _ =>
        change (Pos.compare_cont Eq a b) with (Pos.compare a b) in H;
        destruct (Pos.compare_spec a b)
    end; simpl in *; try done; try lia.

(** * Facts about binary64 arithmetic *)

Section FloatFacts.

Import PyFloat.

#[local] Arguments add : simpl never.
#[local] Arguments sub : simpl never.
#[local] Arguments mul : simpl never.
#[local] Arguments div : simpl never.
#[local] Arguments of_Z : simpl never.
#[local] Arguments lit : simpl never.
#[local] Arguments round : simpl never.
#[local] Arguments float_of_int : simpl never.

(** ** Rounding keeps positive numbers positive *)

Lemma emin_eq : SpecFloat.emin prec emax = emin.
Proof. reflexivity. Qed.

Lemma fexp_eq k : fexp prec emax k = Z.max (k - 53) emin.
Proof. reflexivity. Qed.

Lemma digits2_size p : digits2_pos p = Pos.size p.
Proof. induction p; simpl; congruence. Qed.

Lemma digits2_log2 p : Z.pos (digits2_pos p) = Z.log2 (Z.pos p) + 1.
Proof. rewrite digits2_size. destruct p; simpl; lia. Qed.

Lemma Zdigits2_log2 m : 0 < m → Zdigits2 m = Z.log2 m + 1.
Proof. destruct m; try lia. intros _. apply digits2_log2. Qed.

Lemma shr_1_m mrs : 0 ≤ shr_m mrs → shr_m (shr_1 mrs) = Z.shiftr (shr_m mrs) 1.
Proof.
  destruct mrs as [m r s]. simpl. intros Hm.
  rewrite <- Z.div2_spec.
  destruct m as [|[p|p|]|p]; try reflexivity; lia.
Qed.

Lemma iter_shr_1_m p : ∀ mrs,
  0 ≤ shr_m mrs → shr_m (SpecFloat.iter_pos shr_1 p mrs) = Z.shiftr (shr_m mrs) (Z.pos p).
Proof.
  induction p as [p IH|p IH|]; intros mrs Hm; simpl.
  - assert (H1 : 0 ≤ shr_m (shr_1 mrs)).
    { rewrite shr_1_m by done. by apply Z.shiftr_nonneg. }
    assert (H2 : 0 ≤ shr_m (SpecFloat.iter_pos shr_1 p (shr_1 mrs))).
    { rewrite IH by done. by apply Z.shiftr_nonneg. }
    rewrite !IH, shr_1_m, !Z.shiftr_shiftr by (done || lia).
    f_equal. lia.
  - assert (H2 : 0 ≤ shr_m (SpecFloat.iter_pos shr_1 p mrs)).
    { rewrite IH by done. by apply Z.shiftr_nonneg. }
    rewrite !IH, !Z.shiftr_shiftr by (done || lia).
    f_equal. lia.
  - by apply shr_1_m.
Qed.

Lemma shr_record_of_loc_m m l : shr_m (shr_record_of_loc m l) = m.
Proof. by destruct l as [|[]]. Qed.

(** Shifting to the exponent of the format keeps a positive mantissa
    positive and keeps its magnitude. *)
Lemma shr_fexp_pos m e l :
  0 < m → emin < Z.log2 m + 1 + e →
  ∃ mrs' e', shr_fexp prec emax m e l = (mrs', e')
    ∧ 0 < shr_m mrs' ∧ emin ≤ e'
    ∧ Z.log2 (shr_m mrs') + 1 + e' = Z.log2 m + 1 + e
    ∧ e' = Z.max e (fexp prec emax (Z.log2 m + 1 + e)).
Proof.
  intros Hm Hmag. unfold shr_fexp. rewrite Zdigits2_log2 by done.
  rewrite fexp_eq. set (n := Z.max _ _ - e).
  assert (Hl : 0 ≤ Z.log2 m) by apply Z.log2_nonneg.
  destruct n as [|p|p] eqn:Hn; simpl.
  - eexists _, _. split; [done|]. rewrite shr_record_of_loc_m. lia.
  - eexists _, _. split; [done|].
    rewrite iter_shr_1_m; rewrite shr_record_of_loc_m; [|lia].
    assert (Hp : Z.pos p ≤ Z.log2 m) by lia.
    rewrite Z.log2_shiftr by done.
    split; [|lia].
    rewrite Z.shiftr_div_pow2 by lia.
    apply Z.div_str_pos. split; [apply Z.pow_pos_nonneg; lia|].
    etrans; [|apply Z.log2_spec; done].
    apply Z.pow_le_mono_r; lia.
  - eexists _, _. split; [done|]. rewrite shr_record_of_loc_m. lia.
Qed.

Lemma round_nearest_even_bounds m l :
  m ≤ round_nearest_even m l ≤ m + 1.
Proof. destruct l as [|[]]; simpl; try lia. destruct (Z.even m); lia. Qed.

(** The result of rounding a positive number that is not below the
    least subnormal: positive, of no smaller magnitude, and with an
    exponent at most that of the format one binade up. *)
Lemma binary_round_aux_pos (mx : Z) ex lx :
  0 < mx → emin < Z.log2 mx + 1 + ex →
  ∃ m e, binary_round_aux prec emax false mx ex lx
         = (if e <=? emax - prec then S754_finite false m e else S754_infinity false)
    ∧ emin ≤ e
    ∧ Z.log2 mx + 1 + ex ≤ Z.log2 (Z.pos m) + 1 + e
    ∧ e ≤ Z.max ex (fexp prec emax (Z.log2 mx + 1 + ex + 1)).
Proof.
  intros Hm Hmag. unfold binary_round_aux.
  destruct (shr_fexp_pos mx ex lx Hm Hmag) as (mrs1 & e1 & -> & Hm1 & He1 & Hmag1 & He1').
  pose proof (round_nearest_even_bounds (shr_m mrs1) (loc_of_shr_record mrs1)) as Hr.
  set (m2 := round_nearest_even _ _) in *.
  assert (Hl : Z.log2 (shr_m mrs1) ≤ Z.log2 m2) by (apply Z.log2_le_mono; lia).
  assert (Hu : Z.log2 m2 ≤ Z.log2 (shr_m mrs1) + 1).
  { trans (Z.log2 (2 * shr_m mrs1)); [apply Z.log2_le_mono; lia|].
    rewrite Z.log2_double by done. lia. }
  destruct (shr_fexp_pos m2 e1 loc_Exact) as (mrs3 & e3 & -> & Hm3 & He3 & Hmag3 & He3');
    [lia..|].
  destruct (shr_m mrs3) as [|m3|] eqn:E3; try lia.
  exists m3, e3. split; [done|]. rewrite !fexp_eq in *. lia.
Qed.


Lemma pos_ge_weaken k k' x : pos_ge k x → k' ≤ k → pos_ge k' x.
Proof.
  intros [->|(m & e & -> & ? & ?)] ?; [by left|].
  right. exists m, e. split; [done|]. lia.
Qed.

Lemma pos_ge_finite k m e :
  emin ≤ e → k ≤ Z.log2 (Z.pos m) + 1 + e → pos_ge k (S754_finite false m e).
Proof. intros. right. by exists m, e. Qed.

Lemma pos_ge_nonneg k x : pos_ge k x → nonneg x.
Proof.
  intros [->|(m & e & -> & ? & ?)]; right; [by left|].
  apply pos_ge_finite; [done|]. pose proof (Z.log2_nonneg (Z.pos m)). lia.
Qed.

Lemma binary_round_aux_pos_ge k mx ex lx :
  0 < mx → emin < Z.log2 mx + 1 + ex → k ≤ Z.log2 mx + 1 + ex →
  pos_ge k (binary_round_aux prec emax false mx ex lx).
Proof.
  intros Hm Hmag Hk.
  destruct (binary_round_aux_pos mx ex lx Hm Hmag) as (m & e & -> & He & Hle & _).
  destruct (e <=? emax - prec); [|by left].
  apply pos_ge_finite; lia.
Qed.

Lemma iter_xO m d : Z.pos (Pos.iter xO m d) = Z.pos m * 2 ^ Z.pos d.
Proof.
  induction d as [|d IH] using Pos.peano_ind.
  - simpl. lia.
  - rewrite Pos.iter_succ, Pos2Z.inj_xO, IH, Pos2Z.inj_succ, Z.pow_succ_r by lia. lia.
Qed.

Lemma shl_align_spec mx ex ex' :
  ∃ m' e', shl_align mx ex ex' = (m', e')
    ∧ e' = Z.min ex ex' ∧ Z.pos m' = Z.pos mx * 2 ^ (ex - e').
Proof.
  unfold shl_align. destruct (ex' - ex) as [|d|d] eqn:Hd; eexists _, _; (split; [done|]).
  - replace (ex - ex) with 0 by lia. lia.
  - replace (ex - ex) with 0 by lia. lia.
  - rewrite iter_xO. split; [lia|]. f_equal. f_equal. lia.
Qed.

Lemma log2_mul_pow2 m n : 0 < m → 0 ≤ n → Z.log2 (m * 2 ^ n) = Z.log2 m + n.
Proof. intros. rewrite Z.log2_mul_pow2 by done. lia. Qed.

Lemma binary_round_pos_ge k p e :
  emin < Z.log2 (Z.pos p) + 1 + e → k ≤ Z.log2 (Z.pos p) + 1 + e →
  pos_ge k (binary_round prec emax false p e).
Proof.
  intros Hmag Hk. unfold binary_round.
  destruct (shl_align_spec p e (fexp prec emax (Z.pos (digits2_pos p) + e)))
    as (mz & ez & -> & Hez & Hmz).
  assert (Hlog : Z.log2 (Z.pos mz) + 1 + ez = Z.log2 (Z.pos p) + 1 + e).
  { rewrite Hmz, log2_mul_pow2 by lia. lia. }
  apply binary_round_aux_pos_ge; lia.
Qed.

Lemma of_Z_pos_ge z : 0 < z → pos_ge (Z.log2 z + 1) (of_Z z).
Proof.
  destruct z as [|p|p]; try lia. intros _. unfold of_Z. simpl binary_normalize.
  pose proof (Z.log2_nonneg (Z.pos p)).
  apply binary_round_pos_ge; unfold emin; lia.
Qed.

(** An integer below [2^1023] is converted to a finite float. *)
Lemma of_Z_finite z : 0 < z < 2 ^ 1023 → ∃ m e, of_Z z = S754_finite false m e.
Proof.
  intros [Hz Hlt]. destruct z as [|p|p]; try lia.
  assert (Hl : 0 ≤ Z.log2 (Z.pos p) < 1023).
  { split; [apply Z.log2_nonneg|]. by apply Z.log2_lt_pow2. }
  unfold of_Z. simpl binary_normalize. unfold binary_round.
  destruct (shl_align_spec p 0 (fexp prec emax (Z.pos (digits2_pos p) + 0)))
    as (mz & ez & -> & Hez & Hmz).
  rewrite digits2_log2, fexp_eq in Hez.
  assert (Hlog : Z.log2 (Z.pos mz) + 1 + ez = Z.log2 (Z.pos p) + 1).
  { rewrite Hmz, log2_mul_pow2 by lia. lia. }
  destruct (binary_round_aux_pos (Z.pos mz) ez loc_Exact) as (m & e & -> & _ & _ & He);
    [done|unfold emin; lia|].
  rewrite fexp_eq in He.
  destruct (Z.leb_spec e (emax - prec)); [by eauto|].
  unfold emax, prec, emin in *. lia.
Qed.

Lemma add_finite_pos_ge k mx ex my ey :
  emin ≤ ex → emin ≤ ey →
  k ≤ Z.log2 (Z.pos mx) + 1 + ex ∨ k ≤ Z.log2 (Z.pos my) + 1 + ey →
  pos_ge k (add (S754_finite false mx ex) (S754_finite false my ey)).
Proof.
  intros Hex Hey Hk. unfold add, SFadd, cond_Zopp.
  destruct (shl_align_spec mx ex (Z.min ex ey)) as (mx' & ex' & -> & Hex' & Hmx').
  destruct (shl_align_spec my ey (Z.min ex ey)) as (my' & ey' & -> & Hey' & Hmy').
  simpl fst. change (Z.pos mx' + Z.pos my') with (Z.pos (mx' + my')).
  simpl binary_normalize.
  assert (Hx : Z.log2 (Z.pos mx) + (ex - ex') ≤ Z.log2 (Z.pos (mx' + my'))).
  { rewrite <- log2_mul_pow2, <- Hmx' by lia. apply Z.log2_le_mono. lia. }
  assert (Hy : Z.log2 (Z.pos my) + (ey - ey') ≤ Z.log2 (Z.pos (mx' + my'))).
  { rewrite <- log2_mul_pow2, <- Hmy' by lia. apply Z.log2_le_mono. lia. }
  pose proof (Z.log2_nonneg (Z.pos mx)). pose proof (Z.log2_nonneg (Z.pos my)).
  change (IntDef.Z.min ex ey) with (Z.min ex ey).
  apply binary_round_pos_ge; lia.
Qed.

Lemma add_pos_ge_l k x y : pos_ge k x → nonneg y → pos_ge k (add x y).
Proof.
  intros [->|(mx & ex & -> & Hex & Hk)] [->|[->|(my & ey & -> & Hey & _)]];
    try (by left); try (by apply pos_ge_finite).
  apply add_finite_pos_ge; auto.
Qed.

Lemma add_pos_ge_r k x y : nonneg x → pos_ge k y → pos_ge k (add x y).
Proof.
  intros [->|[->|(mx & ex & -> & Hex & _)]] [->|(my & ey & -> & Hey & Hk)];
    try (by left); try (by apply pos_ge_finite).
  apply add_finite_pos_ge; auto.
Qed.

Lemma add_nonneg x y : nonneg x → nonneg y → nonneg (add x y).
Proof.
  intros [->|Hx] Hy.
  - destruct Hy as [->|[->|(my & ey & -> & Hey & ?)]]; [by left|right..].
    + by left.
    + by apply pos_ge_finite.
  - right. by apply add_pos_ge_l.
Qed.

Lemma mul_pos_ge k1 k2 x y :
  pos_ge k1 x → pos_ge k2 y → emin < k1 + k2 - 1 → pos_ge (k1 + k2 - 1) (mul x y).
Proof.
  intros [->|(mx & ex & -> & Hex & Hk1)] [->|(my & ey & -> & Hey & Hk2)] Hk;
    try (by left).
  unfold mul, SFmul. simpl xorb.
  pose proof (Z.log2_mul_below (Z.pos mx) (Z.pos my)) as Hl.
  change (Z.pos mx * Z.pos my) with (Z.pos (mx * my)) in Hl.
  apply binary_round_aux_pos_ge; lia.
Qed.

Lemma mul_of_len_zero m e : mul (float_of_len 0) (S754_finite false m e) = zero.
Proof. reflexivity. Qed.

Lemma mul_of_len_pos_ge k n y :
  n ≠ 0%nat → pos_ge k y → emin < k → pos_ge k (mul (float_of_len n) y).
Proof.
  intros Hn Hy Hk. unfold float_of_len.
  assert (Hz : 0 < Z.of_nat n) by lia.
  pose proof (Z.log2_nonneg (Z.of_nat n)).
  eapply pos_ge_weaken; [apply (mul_pos_ge 1 k)|]; [|done|lia..].
  eapply pos_ge_weaken; [by apply of_Z_pos_ge|lia].
Qed.

Lemma mul_of_len_nonneg k n m e :
  pos_ge k (S754_finite false m e) → emin < k →
  nonneg (mul (float_of_len n) (S754_finite false m e)).
Proof.
  intros Hy Hk. destruct n as [|n]; [by left|].
  eapply pos_ge_nonneg, mul_of_len_pos_ge; done.
Qed.

Lemma round_half_even_ge num den : num `div` den ≤ round_half_even num den.
Proof.
  unfold round_half_even. destruct (2 * _ ?= den); [|lia..].
  destruct (Z.even _); lia.
Qed.

Lemma div_100_pos n : pos_ge (emin + 1) (div (S754_finite false n 0) (S754_finite false 100 0)).
Proof.
  unfold div, SFdiv, SFdiv_core_binary. simpl xorb.
  rewrite Zdigits2_log2 by lia. change (Zdigits2 100) with 7.
  rewrite fexp_eq.
  pose proof (Z.log2_nonneg (Z.pos n)) as Hl.
  pose proof (Z.log2_spec (Z.pos n)) as Hs.
  set (e' := Z.min _ _).
  assert (He' : e' = Z.min (Z.log2 (Z.pos n) - 59) 0) by (unfold e', emin; lia).
  set (m' := match 0 - 0 - e' with 0 => Z.pos n | Z.pos _ => _ | Z.neg _ => 0 end).
  assert (Hm' : 2 ^ 59 ≤ m').
  { unfold m'. destruct (0 - 0 - e') as [|s|s] eqn:Hs'.
    - trans (2 ^ Z.log2 (Z.pos n)); [apply Z.pow_le_mono_r; lia|lia].
    - rewrite Z.shiftl_mul_pow2 by lia.
      trans (2 ^ Z.log2 (Z.pos n) * 2 ^ Z.pos s); [|apply Z.mul_le_mono_nonneg_r; lia].
      rewrite <- Z.pow_add_r by lia. apply Z.pow_le_mono_r; lia.
    - lia. }
  destruct (Z.div_eucl m' 100) as [q r] eqn:Hqr.
  assert (Hq : q = m' `div` 100) by (unfold Z.div; by rewrite Hqr).
  assert (Hq' : 2 ^ 52 ≤ q).
  { rewrite Hq. trans (2 ^ 59 `div` 100); [done|]. apply Z.div_le_mono; lia. }
  assert (52 ≤ Z.log2 q) by (apply Z.log2_le_pow2; lia).
  apply binary_round_aux_pos_ge; unfold emin; lia.
Qed.

Lemma round_2_pos_ge x : pos_ge (-4) x → pos_ge (emin + 1) (round x 2).
Proof.
  intros [->|(m & e & -> & He & Hk)]; [by left|].
  unfold round. change (10 ^ Z.of_nat 2) with 100.
  set (n := match e with Z.neg p => _ | _ => _ end).
  assert (Hn : 0 < n).
  { unfold n. destruct e as [|p|p].
    - lia.
    - assert (0 < 2 ^ Z.pos p) by (apply Z.pow_pos_nonneg; lia). nia.
    - eapply Z.lt_le_trans; [|apply round_half_even_ge].
      rewrite Z.pow_pos_fold.
      apply Z.div_str_pos. split; [apply Z.pow_pos_nonneg; lia|].
      pose proof (Z.log2_spec (Z.pos m)) as Hs.
      pose proof (Z.log2_nonneg (Z.pos m)) as Hl.
      trans (2 ^ (Z.log2 (Z.pos m) + 5)); [apply Z.pow_le_mono_r; lia|].
      rewrite Z.pow_add_r by lia. lia. }
  destruct n as [|n'|n']; try lia.
  apply div_100_pos.
Qed.

Lemma nonneg_leb x : nonneg x → leb zero x = true.
Proof. by intros [->|[->|(m & e & -> & _)]]. Qed.

Lemma pos_ge_ltb k x : pos_ge k x → ltb zero x = true.
Proof. by intros [->|(m & e & -> & _)]. Qed.

Lemma pos_ge_eqb k x : pos_ge k x → eqb x zero = false.
Proof. by intros [->|(m & e & -> & _)]. Qed.


(** *** Exact roundings *)

Lemma shr_1_exact m :
  0 ≤ m → shr_1 (Build_shr_record (m * 2) false false) = Build_shr_record m false false.
Proof. intros Hm. destruct m as [|p|p]; [done| |lia]. by rewrite Z.mul_comm. Qed.

Lemma iter_shr_1_exact p : ∀ m, 0 ≤ m →
  SpecFloat.iter_pos shr_1 p (Build_shr_record (m * 2 ^ Z.pos p) false false)
  = Build_shr_record m false false.
Proof.
  induction p as [p IH|p IH|]; intros m Hm.
  - change (SpecFloat.iter_pos shr_1 p~1 ?x)
      with (SpecFloat.iter_pos shr_1 p (SpecFloat.iter_pos shr_1 p (shr_1 x))).
    replace (m * 2 ^ Z.pos p~1) with (m * 2 ^ Z.pos p * 2 ^ Z.pos p * 2).
    2:{ replace (Z.pos p~1) with (Z.pos p + Z.pos p + 1) by lia.
        rewrite !Z.pow_add_r by lia. ring. }
    assert (0 < 2 ^ Z.pos p) by (apply Z.pow_pos_nonneg; lia).
    rewrite shr_1_exact, !IH; [done|nia..].
  - change (SpecFloat.iter_pos shr_1 p~0 ?x)
      with (SpecFloat.iter_pos shr_1 p (SpecFloat.iter_pos shr_1 p x)).
    replace (m * 2 ^ Z.pos p~0) with (m * 2 ^ Z.pos p * 2 ^ Z.pos p).
    2:{ replace (Z.pos p~0) with (Z.pos p + Z.pos p) by lia.
        rewrite !Z.pow_add_r by lia. ring. }
    assert (0 < 2 ^ Z.pos p) by (apply Z.pow_pos_nonneg; lia).
    rewrite !IH; [done|nia..].
  - change (SpecFloat.iter_pos shr_1 1 ?x) with (shr_1 x).
    rewrite Z.pow_1_r. by apply shr_1_exact.
Qed.

(** A number [p * 2^e] that fits the format is rounded to itself: to
    the mantissa [m] at the exponent [c] of the format. *)
Lemma binary_round_exact p e m c :
  c = fexp prec emax (Z.log2 (Z.pos p) + 1 + e) →
  c ≤ emax - prec →
  Z.pos p * 2 ^ Z.max 0 (e - c) = Z.pos m * 2 ^ Z.max 0 (c - e) →
  binary_round prec emax false p e = S754_finite false m c.
Proof.
  intros Hc Hmax Hval. unfold binary_round. rewrite digits2_log2, <- Hc.
  destruct (shl_align_spec p e c) as (mz & ez & -> & Hez & Hmz).
  assert (Hmag : Z.log2 (Z.pos mz) + 1 + ez = Z.log2 (Z.pos p) + 1 + e).
  { rewrite Hmz, log2_mul_pow2 by lia. lia. }
  assert (Hmag' : Z.log2 (Z.pos m) + 1 + c = Z.log2 (Z.pos p) + 1 + e).
  { destruct (Z.le_ge_cases c e).
    - replace (Z.max 0 (e - c)) with (e - c) in Hval by lia.
      replace (Z.max 0 (c - e)) with 0 in Hval by lia. rewrite ?Z.pow_0_r, Z.mul_1_r in Hval.
      rewrite <- Hval, log2_mul_pow2 by lia. lia.
    - replace (Z.max 0 (e - c)) with 0 in Hval by lia.
      replace (Z.max 0 (c - e)) with (c - e) in Hval by lia. rewrite ?Z.pow_0_r, Z.mul_1_r in Hval.
      rewrite Hval, log2_mul_pow2 by lia. lia. }
  unfold binary_round_aux.
  assert (H1 : shr_fexp prec emax (Z.pos mz) ez loc_Exact
               = (Build_shr_record (Z.pos m) false false, c)).
  { unfold shr_fexp. rewrite Zdigits2_log2, Hmag, <- Hc by lia. simpl shr_record_of_loc.
    unfold shr. destruct (c - ez) as [|n|n] eqn:Hn; [| |lia].
    - assert (c ≤ e) by lia.
      replace (Z.max 0 (e - c)) with (e - c) in Hval by lia.
      replace (Z.max 0 (c - e)) with 0 in Hval by lia. rewrite ?Z.pow_0_r, Z.mul_1_r in Hval.
      f_equal; [|lia]. f_equal. rewrite <- Hval, Hmz. do 2 f_equal. lia.
    - assert (Hee : ez = e) by lia. clear Hez. subst ez.
      replace (Z.max 0 (e - c)) with 0 in Hval by lia.
      replace (Z.max 0 (c - e)) with (c - e) in Hval by lia. rewrite ?Z.pow_0_r, Z.mul_1_r in Hval.
      replace (e - e) with 0 in Hmz by lia. rewrite Z.pow_0_r, Z.mul_1_r in Hmz.
      rewrite Hmz, Hval, Hn, iter_shr_1_exact by lia. f_equal. lia. }
  rewrite H1. simpl loc_of_shr_record. simpl round_nearest_even. simpl shr_m at 1.
  assert (H2 : shr_fexp prec emax (Z.pos m) c loc_Exact
               = (Build_shr_record (Z.pos m) false false, c)).
  { unfold shr_fexp. rewrite Zdigits2_log2, Hmag', <- Hc, Z.sub_diag by lia. done. }
  rewrite H2. simpl shr_m.
  destruct (Z.leb_spec c (emax - prec)); [done|lia].
Qed.

Lemma of_Z_exact z :
  0 < z < 2 ^ 53 →
  ∃ m, of_Z z = S754_finite false m (Z.log2 z - 52)
       ∧ Z.pos m = z * 2 ^ (52 - Z.log2 z).
Proof.
  intros [Hz Hlt]. destruct z as [|p|p]; try lia.
  assert (Hl : 0 ≤ Z.log2 (Z.pos p) < 53).
  { split; [apply Z.log2_nonneg|]. by apply Z.log2_lt_pow2. }
  assert (Hp : 0 < Z.pos p * 2 ^ (52 - Z.log2 (Z.pos p))).
  { apply Z.mul_pos_pos; [done|]. apply Z.pow_pos_nonneg; lia. }
  exists (Z.to_pos (Z.pos p * 2 ^ (52 - Z.log2 (Z.pos p)))).
  rewrite Z2Pos.id by done. split; [|done].
  unfold of_Z. simpl binary_normalize. apply binary_round_exact.
  - rewrite fexp_eq. unfold emin. lia.
  - unfold emax, prec. lia.
  - rewrite Z2Pos.id by done.
    replace (Z.max 0 (Z.log2 (Z.pos p) - 52 - 0)) with 0 by lia.
    rewrite ?Z.pow_0_r, Z.mul_1_r. do 2 f_equal. lia.
Qed.

(** Adding two integers is exact as long as the sum stays below
    [2^53]. *)
Lemma add_of_Z a b :
  0 ≤ a → 0 < b → a + b < 2 ^ 53 → add (of_Z a) (of_Z b) = of_Z (a + b).
Proof.
  intros Ha Hb Hab.
  destruct (of_Z_exact b) as (mb & Hfb & Hmb); [lia|].
  destruct (Z.eq_dec a 0) as [->|Hne]; [by rewrite Hfb|].
  destruct (of_Z_exact a) as (ma & Hfa & Hma); [lia|].
  destruct (of_Z_exact (a + b)) as (ms & Hfs & Hms); [lia|].
  rewrite Hfa, Hfb, Hfs. unfold add, SFadd, cond_Zopp.
  change (IntDef.Z.min ?x ?y) with (Z.min x y).
  set (ez := Z.min _ _).
  destruct (shl_align_spec ma (Z.log2 a - 52) ez) as (ma' & ea' & -> & Hea' & Hma').
  destruct (shl_align_spec mb (Z.log2 b - 52) ez) as (mb' & eb' & -> & Heb' & Hmb').
  simpl fst. change (Z.pos ma' + Z.pos mb') with (Z.pos (ma' + mb')).
  simpl binary_normalize.
  assert (Hla : 0 ≤ Z.log2 a < 53).
  { split; [apply Z.log2_nonneg|]. apply Z.log2_lt_pow2; lia. }
  assert (Hlb : 0 ≤ Z.log2 b < 53).
  { split; [apply Z.log2_nonneg|]. apply Z.log2_lt_pow2; lia. }
  assert (Hls : 0 ≤ Z.log2 (a + b) < 53).
  { split; [apply Z.log2_nonneg|]. apply Z.log2_lt_pow2; lia. }
  assert (Hlas : Z.log2 a ≤ Z.log2 (a + b)) by (apply Z.log2_le_mono; lia).
  assert (Hlbs : Z.log2 b ≤ Z.log2 (a + b)) by (apply Z.log2_le_mono; lia).
  assert (Hsum : Z.pos (ma' + mb') = (a + b) * 2 ^ (- ez)).
  { rewrite Pos2Z.inj_add, Hma', Hmb', Hma, Hmb, <- !Z.mul_assoc, <- !Z.pow_add_r by lia.
    rewrite Z.mul_add_distr_r. f_equal; do 2 f_equal; lia. }
  apply binary_round_exact.
  - rewrite Hsum, log2_mul_pow2, fexp_eq by lia. unfold emin. lia.
  - unfold emax, prec. lia.
  - rewrite Hsum, Hms.
    replace (Z.max 0 (ez - (Z.log2 (a + b) - 52))) with 0 by lia.
    replace (Z.max 0 (Z.log2 (a + b) - 52 - ez)) with (Z.log2 (a + b) - 52 - ez) by lia.
    rewrite ?Z.pow_0_r, Z.mul_1_r, <- Z.mul_assoc, <- Z.pow_add_r by lia. do 2 f_equal. lia.
Qed.

Lemma same_float_eq x y : same_float x y = true → x = y.
Proof.
  destruct x as [s|s| |s m e], y as [s'|s'| |s' m' e']; simpl; try done.
  - by intros ->%eqb_prop.
  - by intros ->%eqb_prop.
  - intros [[->%eqb_prop ->%Pos.eqb_eq]%andb_prop ->%Z.eqb_eq]%andb_prop. done.
Qed.

Lemma pos_geb_spec k x : pos_geb k x = true → pos_ge k x.
Proof.
  destruct x as [| | |[] m e]; try done. simpl.
  intros [?%Z.leb_le ?%Z.leb_le]%andb_prop. by apply pos_ge_finite.
Qed.

Lemma pos_geb_finite k x : pos_geb k x = true → ∃ m e, x = S754_finite false m e.
Proof. destruct x as [| | |[] m e]; try done. eauto. Qed.

Lemma add_zero_r x : nonneg x → add x zero = x.
Proof. by intros [->|[->|(m & e & -> & _)]]. Qed.

(** ** The order of floats *)

Lemma ltb_asym x y : ltb x y = true → ltb y x = false.
Proof.
  unfold ltb, SFltb.
  destruct x as [[]|[]| |[] mx ex], y as [[]|[]| |[] my ey]; simpl; try done;
    compare_cases.
Qed.

Lemma ltb_false_trans x y z :
  is_nan y = false → ltb x y = false → ltb y z = false → ltb x z = false.
Proof.
  unfold ltb, SFltb.
  destruct x as [[]|[]| |[] mx ex], y as [[]|[]| |[] my ey], z as [[]|[]| |[] mz ez];
    simpl; try done; compare_cases.
Qed.

Lemma eqb_not_ltb x y c : eqb x c = true → eqb y c = true → ltb x y = false.
Proof.
  unfold ltb, eqb, SFltb, SFeqb.
  destruct x as [[]|[]| |[] mx ex], y as [[]|[]| |[] my ey], c as [[]|[]| |[] mc ec];
    simpl; try done; compare_cases.
Qed.

End FloatFacts.

(** * The savings estimate *)

Section Savings.

Import PyFloat.

#[local] Arguments add : simpl never.
#[local] Arguments sub : simpl never.
#[local] Arguments mul : simpl never.
#[local] Arguments div : simpl never.
#[local] Arguments of_Z : simpl never.
#[local] Arguments lit : simpl never.
#[local] Arguments round : simpl never.
#[local] Arguments float_of_int : simpl never.

(** ** Every price of a table has a property its entries and its default
    have *)

Lemma price_get_forallb (P : float → bool) (l : list (string * float)) a dflt :
  forallb (λ kv, P kv.2) l = true → P dflt = true →
  P (price_get (list_to_map l) a dflt) = true.
Proof.
  intros Hl Hd. destruct a as [s|n]; [|done]. simpl.
  destruct (list_to_map l !! s) as [v|] eqn:E; [|done]. simpl.
  apply elem_of_list_to_map_2, list_elem_of_In in E.
  rewrite forallb_forall in Hl. apply (Hl _ E).
Qed.

Lemma ec2_price_pos_ge a : pos_ge 4 (price_get ec2_pricing a (lit 300 1)).
Proof. apply pos_geb_spec. by apply (price_get_forallb (pos_geb 4)). Qed.

Lemma ebs_price_pos_ge a : pos_ge (-4) (price_get ebs_pricing a (lit 8 2)).
Proof. apply pos_geb_spec. by apply (price_get_forallb (pos_geb (-4))). Qed.

Lemma rds_price_pos_ge a : pos_ge 4 (price_get rds_instance_pricing a (lit 600 1)).
Proof. apply pos_geb_spec. by apply (price_get_forallb (pos_geb 4)). Qed.

Lemma ec2_price_whole instance :
  ec2_price instance = of_Z (whole (ec2_price instance))
  ∧ 0 < whole (ec2_price instance) ≤ 120.
Proof.
  assert (H : whole_dollars (ec2_price instance) = true)
    by (by apply price_get_forallb).
  apply andb_prop in H as [[H1%same_float_eq H2%Z.ltb_lt]%andb_prop H3%Z.leb_le].
  done.
Qed.

(** ** Sizes that convert *)

Lemma float_of_int_finite n : 0 < n < 2 ^ 1023 → float_of_int n = Return (of_Z n).
Proof.
  intros Hn. unfold float_of_int. by destruct (of_Z_finite n Hn) as (m & e & ->).
Qed.

(** Every positive size below [2^1023] is a size [float] converts. *)
Lemma size_ok_below_2_1023 n : 0 < n < 2 ^ 1023 → size_ok (Some (AInt n)).
Proof. intros Hn. split; [lia|]. by apply float_of_int_finite. Qed.

(** ** The loops *)

Lemma track_nonneg b x : track b x → nonneg x.
Proof. destruct b; simpl; [by left|]. apply pos_ge_nonneg. Qed.

Lemma attr_mul_float_ok k o x :
  size_ok o → pos_ge k x → emin < k →
  ∃ cost, attr_mul_float (default (AInt 100) o) x = Return cost ∧ pos_ge k cost.
Proof.
  intros Ho Hx Hk. destruct o as [[s|n]|]; simpl in *; [done| |].
  - destruct Ho as [Hn ->]. simpl. eexists. split; [done|].
    pose proof (Z.log2_nonneg n).
    eapply pos_ge_weaken; [apply (mul_pos_ge 1 k)|]; [|done|lia..].
    eapply pos_ge_weaken; [by apply of_Z_pos_ge|lia].
  - change (float_of_int 100) with (Return (of_Z 100)). simpl.
    eexists. split; [done|].
    eapply pos_ge_weaken; [apply (mul_pos_ge 7 k)|]; [|done|lia..].
    by apply pos_geb_spec.
Qed.

Lemma ec2_step_pos_ge total instance : nonneg total → pos_ge (-4) (ec2_step total instance).
Proof.
  intros Ht. unfold ec2_step.
  eapply pos_ge_weaken; [apply add_pos_ge_r, ec2_price_pos_ge|]; [done|lia].
Qed.

Lemma ebs_step_pos_ge total volume :
  nonneg total → size_ok (volume !! "size"%string) →
  ∃ total', ebs_step total volume = Return total' ∧ pos_ge (-4) total'.
Proof.
  intros Ht Hv. unfold ebs_step.
  edestruct (attr_mul_float_ok (-4)) as (cost & -> & Hc);
    [done|apply ebs_price_pos_ge|unfold emin; lia|].
  simpl. eexists. split; [done|]. by apply add_pos_ge_r.
Qed.

Lemma rds_step_pos_ge total db :
  nonneg total → size_ok (db !! "storage"%string) →
  ∃ total', rds_step total db = Return total' ∧ pos_ge (-4) total'.
Proof.
  intros Ht Hv. unfold rds_step.
  edestruct (attr_mul_float_ok (-3) (db !! "storage"%string) (lit 115 3))
    as (cost & -> & Hc); [done|by apply pos_geb_spec|unfold emin; lia|].
  simpl. eexists. split; [done|].
  eapply pos_ge_weaken; [apply add_pos_ge_r; [done|]|].
  - apply add_pos_ge_l; [apply rds_price_pos_ge|by eapply pos_ge_nonneg].
  - lia.
Qed.

Lemma fold_left_track {A} (step : float → A → float) l b total :
  (∀ t x, nonneg t → pos_ge (-4) (step t x)) →
  track b total → track (b && is_nil l) (fold_left step l total).
Proof.
  intros Hstep Ht. destruct l as [|x l]; [by rewrite andb_true_r|].
  rewrite andb_false_r. simpl.
  assert (Hx : pos_ge (-4) (step total x)) by (eapply Hstep, track_nonneg; done).
  clear Ht. revert Hx. generalize (step total x). clear total.
  induction l as [|y l IH]; intros t Hx; [done|].
  simpl. apply IH. eapply Hstep, pos_ge_nonneg; done.
Qed.

Lemma for_each_track {A} (body : float → A → outcome float) (P : A → Prop) l b total :
  (∀ t x, nonneg t → P x → ∃ t', body t x = Return t' ∧ pos_ge (-4) t') →
  Forall P l → track b total →
  ∃ total', for_each body l total = Return total' ∧ track (b && is_nil l) total'.
Proof.
  intros Hbody Hl Ht. destruct Hl as [|x l Hx Hl].
  { exists total. by rewrite andb_true_r. }
  rewrite andb_false_r. simpl.
  destruct (Hbody total x) as (t' & -> & Hx'); [by eapply track_nonneg|done|].
  simpl. clear Ht Hx. revert t' Hx'.
  induction Hl as [|y l Hy Hl IH]; intros t Ht; [by exists t|].
  simpl. destruct (Hbody t y) as (t' & -> & Hy'); [by eapply pos_ge_nonneg|done|].
  simpl. by apply IH.
Qed.

Lemma count_track {A} (l : list A) price b total :
  pos_geb (-4) price = true → track b total →
  track (b && is_nil l) (add total (mul (float_of_len (length l)) price)).
Proof.
  intros Hp Ht. destruct (pos_geb_finite _ _ Hp) as (m & e & ->).
  destruct l as [|x l].
  - rewrite andb_true_r. simpl length. rewrite mul_of_len_zero, add_zero_r; [done|].
    by eapply track_nonneg.
  - rewrite andb_false_r. simpl track.
    apply add_pos_ge_r; [by eapply track_nonneg|].
    apply mul_of_len_pos_ge; [done|by apply pos_geb_spec|unfold emin; lia].
Qed.

Lemma no_items_all_empty idle_resources :
  no_items idle_resources = true ↔ all_empty idle_resources.
Proof.
  unfold no_items, all_empty.
  destruct (get_list _ "ec2_stopped"), (get_list _ "ebs_unattached"),
    (get_list _ "eip_unassociated"), (get_list _ "rds_stopped"),
    (get_list _ "elb_unused"); simpl; intuition congruence.
Qed.

(** On a well-formed inventory the estimate is returned; it is [0.0]
    when no list has an item and positive otherwise. *)
Lemma calculate_potential_savings_track idle_resources :
  well_formed idle_resources →
  ∃ savings, calculate_potential_savings idle_resources = Return savings
    ∧ if no_items idle_resources then savings = zero else pos_ge (emin + 1) savings.
Proof.
  intros [Hebs Hrds]. unfold calculate_potential_savings, no_items.
  assert (H0 : track true (lit 0 1)) by done.
  apply (fold_left_track ec2_step (get_list idle_resources "ec2_stopped")) in H0;
    [|apply ec2_step_pos_ge].
  eapply (for_each_track ebs_step) in H0 as (t2 & -> & H2);
    [|apply ebs_step_pos_ge|apply Hebs].
  simpl mbind.
  apply (count_track (get_list idle_resources "eip_unassociated") (lit 365 2)) in H2;
    [|done].
  eapply (for_each_track rds_step) in H2 as (t4 & -> & H4);
    [|apply rds_step_pos_ge|apply Hrds].
  simpl mbind.
  apply (count_track (get_list idle_resources "elb_unused") (lit 180 1)) in H4; [|done].
  eexists. split; [done|].
  revert H4. simpl andb. generalize (is_nil (get_list idle_resources "ec2_stopped") &&
    is_nil (get_list idle_resources "ebs_unattached") &&
    is_nil (get_list idle_resources "eip_unassociated") &&
    is_nil (get_list idle_resources "rds_stopped") &&
    is_nil (get_list idle_resources "elb_unused")).
  intros [] Ht; simpl in Ht.
  - by rewrite Ht.
  - by apply round_2_pos_ge.
Qed.

(** ** The claims on the estimate *)

(** C3. On the inventory with one [t3.medium] instance, one 100 GB [gp3]
    volume, one unassociated address and no stopped database or unused
    load balancer, [calculate_potential_savings] returns [41.65], the
    float that [30.0 + 100 * 0.08 + 3.65] rounds to. *)
Theorem example_estimate :
  calculate_potential_savings example_inventory = Return (lit 4165 2)
  ∧ round (add (add (lit 300 1) (mul (of_Z 100) (lit 8 2))) (lit 365 2)) 2 = lit 4165 2.
Proof. by vm_compute. Qed.

(** C4, as stated, fails: a size is any positive [int], and one that
    [float] cannot convert makes the product raise [OverflowError].  The
    size [2^1024 - 2^970 - 1] still converts; at [2^1024] no estimate is
    returned. *)
Lemma huge_size_overflows :
  size_ok (ebs_volume (2 ^ 1024 - 2 ^ 970 - 1) "gp3" !! "size"%string)
  ∧ 0 < 2 ^ 1024
  ∧ calculate_potential_savings huge_volume = Raise OverflowError.
Proof. by vm_compute. Qed.

(** C4 (amended). For every inventory whose EBS [size] and RDS [storage]
    values, where present, are positive integers that [float] converts
    (as every one below [2^1023] is), [calculate_potential_savings]
    returns a value [>= 0], and the value equals [0] if and only if each
    of the five lists is empty. *)
Theorem savings_nonnegative_zero_iff_empty idle_resources :
  well_formed idle_resources →
  ∃ savings, calculate_potential_savings idle_resources = Return savings
    ∧ leb zero savings = true
    ∧ (eqb savings zero = true ↔ all_empty idle_resources).
Proof.
  intros Hwf.
  destruct (calculate_potential_savings_track _ Hwf) as (savings & Hs & Ht).
  exists savings. split; [done|]. rewrite <- no_items_all_empty.
  destruct (no_items idle_resources).
  - by subst savings.
  - split; [by eapply nonneg_leb, pos_ge_nonneg|].
    rewrite (pos_ge_eqb _ _ Ht). done.
Qed.

Lemma savings_nonnegative_zero_iff_empty_witness :
  ∃ savings, calculate_potential_savings example_inventory = Return savings
    ∧ leb zero savings = true
    ∧ (eqb savings zero = true ↔ all_empty example_inventory).
Proof.
  apply (savings_nonnegative_zero_iff_empty example_inventory).
  split; repeat constructor.
Defined.

(** C10. A record that lacks a pricing key is priced by the default of
    that key: an EC2 record with no [type] as [t3.medium] at [30.0], an
    EBS record with no [size] as 100 GB and with no [type] at the [gp3]
    rate [0.08], an RDS record with no [instance_class] as [db.t3.medium]
    at [60.0] and with no [storage] as 100 GB.  An inventory whose
    volumes have no [size] and whose databases have no [storage] (so one
    of empty records too) gets an estimate, never an exception, and a
    positive one as soon as it holds a record. *)
Theorem missing_attributes_use_defaults :
  (∀ total instance, instance !! "type"%string = None →
     ec2_step total instance = add total (lit 300 1)
     ∧ ec2_step total instance
       = ec2_step total (<["type"%string := AStr "t3.medium"]> instance))
  ∧ (∀ total volume, volume !! "size"%string = None →
       ebs_step total volume = ebs_step total (<["size"%string := AInt 100]> volume))
  ∧ (∀ total volume, volume !! "type"%string = None →
       ebs_step total volume = ebs_step total (<["type"%string := AStr "gp3"]> volume))
  ∧ (∀ total, ebs_step total ∅ = Return (add total (mul (of_Z 100) (lit 8 2))))
  ∧ (∀ total db, db !! "instance_class"%string = None →
       rds_step total db
       = rds_step total (<["instance_class"%string := AStr "db.t3.medium"]> db))
  ∧ (∀ total db, db !! "storage"%string = None →
       rds_step total db = rds_step total (<["storage"%string := AInt 100]> db))
  ∧ (∀ total, rds_step total ∅
              = Return (add total (add (lit 600 1) (mul (of_Z 100) (lit 115 3)))))
  ∧ (ec2_pricing !! "t3.medium"%string = Some (lit 300 1)
     ∧ ebs_pricing !! "gp3"%string = Some (lit 8 2)
     ∧ rds_instance_pricing !! "db.t3.medium"%string = Some (lit 600 1))
  ∧ (∀ idle_resources : gmap string (list (gmap string attr)),
       Forall (λ volume, volume !! "size"%string = None)
              (get_list idle_resources "ebs_unattached") →
       Forall (λ db, db !! "storage"%string = None)
              (get_list idle_resources "rds_stopped") →
       ∃ savings, calculate_potential_savings idle_resources = Return savings
         ∧ (¬ all_empty idle_resources → ltb zero savings = true))
  ∧ calculate_potential_savings empty_records = Return (lit 13115 2)
  ∧ ltb zero (lit 13115 2) = true.
Proof.
  repeat apply conj.
  - intros total instance H. unfold ec2_step. by rewrite H, lookup_insert_eq.
  - intros total volume H. unfold ebs_step.
    by rewrite H, lookup_insert_eq, lookup_insert_ne.
  - intros total volume H. unfold ebs_step.
    by rewrite H, lookup_insert_eq, lookup_insert_ne.
  - done.
  - intros total db H. unfold rds_step.
    by rewrite H, lookup_insert_eq, lookup_insert_ne.
  - intros total db H. unfold rds_step.
    by rewrite H, lookup_insert_eq, lookup_insert_ne.
  - done.
  - by vm_compute.
  - by vm_compute.
  - by vm_compute.
  - intros idle_resources Hebs Hrds.
    destruct (calculate_potential_savings_track idle_resources) as (savings & Hs & Ht).
    { split; (eapply Forall_impl; [done|]); by intros ? ->. }
    exists savings. split; [done|]. rewrite <- no_items_all_empty.
    destruct (no_items idle_resources); [done|]. intros _. by eapply pos_ge_ltb.
  - by vm_compute.
  - by vm_compute.
Qed.

Lemma missing_attributes_use_defaults_witness :
  ec2_step zero ∅ = add zero (lit 300 1)
  ∧ ebs_step zero ∅ = ebs_step zero (<["size"%string := AInt 100]> ∅)
  ∧ ebs_step zero ∅ = ebs_step zero (<["type"%string := AStr "gp3"]> ∅)
  ∧ rds_step zero ∅ = rds_step zero (<["instance_class"%string := AStr "db.t3.medium"]> ∅)
  ∧ rds_step zero ∅ = rds_step zero (<["storage"%string := AInt 100]> ∅)
  ∧ ∃ savings, calculate_potential_savings empty_records = Return savings
      ∧ ltb zero savings = true.
Proof.
  destruct missing_attributes_use_defaults
    as (Hec2 & Hsize & Htype & _ & Hclass & Hstorage & _ & _ & Hall & _).
  split; [by apply Hec2|].
  split; [by apply Hsize|].
  split; [by apply Htype|].
  split; [by apply Hclass|].
  split; [by apply Hstorage|].
  destruct (Hall empty_records) as (savings & Hs & Hpos).
  - by repeat constructor.
  - by repeat constructor.
  - exists savings. split; [done|]. apply Hpos. by intros [? _].
Defined.

(** ** Order of the items *)

Lemma fold_ec2_exact l : ∀ a,
  0 ≤ a → a + 120 * Z.of_nat (length l) < 2 ^ 53 →
  fold_left ec2_step l (of_Z a) = of_Z (a + ec2_total l).
Proof.
  induction l as [|instance l IH]; intros a Ha Hlen; simpl.
  - by rewrite Z.add_0_r.
  - destruct (ec2_price_whole instance) as [Hp Hw].
    change (ec2_step (of_Z a) instance) with (add (of_Z a) (ec2_price instance)).
    set (w := whole (ec2_price instance)) in *. rewrite Hp.
    cbn [length] in Hlen. rewrite Nat2Z.inj_succ in Hlen.
    rewrite add_of_Z, IH by lia. f_equal. lia.
Qed.

Lemma ec2_total_Permutation l l' : l ≡ₚ l' → ec2_total l = ec2_total l'.
Proof. induction 1; simpl; lia. Qed.

Lemma get_list_insert (idle_resources : gmap string (list (gmap string attr))) key l k :
  get_list (<[key:=l]> idle_resources) k
  = if decide (key = k) then l else get_list idle_resources k.
Proof.
  unfold get_list. case_decide as Hk.
  - subst. by rewrite lookup_insert_eq.
  - by rewrite lookup_insert_ne.
Qed.

(** C5, as stated, fails: float addition is not associative.  Three 1 GB
    volumes of types [gp3], [gp2] and [st1] are estimated at [0.22], and
    at [0.23] in the reverse order; three [db.t3.micro] databases of 1, 1
    and 7 GB at [46.03], and at [46.04] in the reverse order. *)
Lemma savings_depend_on_order :
  (volumes_b ≡ₚ get_list (only_volumes volumes_a) "ebs_unattached"
   ∧ calculate_potential_savings (only_volumes volumes_a) = Return (lit 22 2)
   ∧ calculate_potential_savings
       (<["ebs_unattached"%string := volumes_b]> (only_volumes volumes_a))
     = Return (lit 23 2)
   ∧ eqb (lit 22 2) (lit 23 2) = false)
  ∧ (databases_b ≡ₚ get_list (only_databases databases_a) "rds_stopped"
     ∧ calculate_potential_savings (only_databases databases_a) = Return (lit 4603 2)
     ∧ calculate_potential_savings
         (<["rds_stopped"%string := databases_b]> (only_databases databases_a))
       = Return (lit 4604 2)
     ∧ eqb (lit 4603 2) (lit 4604 2) = false).
Proof.
  split; (split; [|by vm_compute]).
  - change (get_list _ _) with volumes_a. unfold volumes_a, volumes_b.
    rewrite <- (reverse_Permutation [_; _; _]). done.
  - change (get_list _ _) with databases_a. unfold databases_a, databases_b.
    rewrite <- (reverse_Permutation [_; _; _]). done.
Qed.

(** C5 (amended). Permuting the items of [eip_unassociated] or of
    [elb_unused], or those of an [ec2_stopped] list of at most [2^46]
    instances, leaves the result of [calculate_potential_savings]
    unchanged: the first two lists count through their length only, and
    the EC2 prices are whole dollars, which add exactly. *)
Theorem savings_permutation_invariant
    (idle_resources : gmap string (list (gmap string attr))) (key : string)
    (l' : list (gmap string attr)) :
  (key = "ec2_stopped"%string ∧ Z.of_nat (length l') ≤ 2 ^ 46)
    ∨ key = "eip_unassociated"%string ∨ key = "elb_unused"%string →
  l' ≡ₚ get_list idle_resources key →
  calculate_potential_savings (<[key:=l']> idle_resources)
  = calculate_potential_savings idle_resources.
Proof.
  intros Hkey Hperm. unfold calculate_potential_savings.
  rewrite !get_list_insert.
  destruct Hkey as [[-> Hlen]|[->| ->]]; simpl decide;
    repeat (case_decide; [done|]); repeat (case_decide; [|done]);
    try by rewrite (Permutation_length Hperm).
  change (lit 0 1) with (of_Z 0).
  rewrite !fold_ec2_exact, (ec2_total_Permutation _ _ Hperm);
    rewrite <- ?(Permutation_length Hperm); (done || lia).
Qed.

Lemma savings_permutation_invariant_witness :
  calculate_potential_savings
    (<["ec2_stopped"%string := ([ec2_instance "t3.large"; ∅])]> two_instances)
  = calculate_potential_savings two_instances.
Proof.
  apply savings_permutation_invariant.
  - left. split; [done|]. simpl. lia.
  - change (get_list _ _) with [ (∅ : gmap string attr); ec2_instance "t3.large"].
    apply Permutation_swap.
Defined.

End Savings.

(** * The recommendations *)

Section Recommendations.

Import PyFloat.

#[local] Arguments of_Z : simpl never.
#[local] Arguments lit : simpl never.

(** ** The stable descending sort *)

Lemma insert_by_cost_Permutation x l : insert_by_cost x l ≡ₚ x :: l.
Proof.
  induction l as [|y l IH]; simpl; [done|].
  destruct (ltb x.2 y.2); [|done]. rewrite IH. apply Permutation_swap.
Qed.

Lemma sorted_by_cost_reverse_Permutation items : sorted_by_cost_reverse items ≡ₚ items.
Proof.
  induction items as [|x l IH]; simpl; [done|].
  by rewrite insert_by_cost_Permutation, IH.
Qed.

Lemma insert_by_cost_sorted x l :
  no_nan l → StronglySorted cost_ge l → StronglySorted cost_ge (insert_by_cost x l).
Proof.
  intros Hnan Hs. induction Hs as [|y l Hs IH Hy]; simpl.
  - by repeat constructor.
  - apply Forall_cons in Hnan as [Hy' Hnan].
    destruct (ltb x.2 y.2) eqn:Hxy.
    + constructor; [by apply IH|].
      rewrite insert_by_cost_Permutation. constructor; [|done].
      by apply ltb_asym.
    + constructor; [by constructor|]. constructor; [done|].
      eapply Forall_impl; [apply Hy|]. intros z Hz.
      by apply (ltb_false_trans _ y.2).
Qed.

Lemma sorted_by_cost_reverse_sorted items :
  no_nan items → StronglySorted cost_ge (sorted_by_cost_reverse items).
Proof.
  induction 1 as [|x l Hx Hl IH]; simpl; [constructor|].
  apply insert_by_cost_sorted; [|done].
  unfold no_nan. by rewrite sorted_by_cost_reverse_Permutation.
Qed.

Lemma insert_by_cost_stable c x l :
  List.filter (has_cost c) (insert_by_cost x l) = List.filter (has_cost c) (x :: l).
Proof.
  induction l as [|y l IH]; [done|].
  cbn [insert_by_cost]. destruct (ltb x.2 y.2) eqn:Hxy; [|done].
  cbn [List.filter] in *. rewrite IH.
  destruct (has_cost c x) eqn:Hx, (has_cost c y) eqn:Hy; try done.
  unfold has_cost in *. by rewrite (eqb_not_ltb _ _ _ Hx Hy) in Hxy.
Qed.

Lemma sorted_by_cost_reverse_stable c items :
  List.filter (has_cost c) (sorted_by_cost_reverse items) = List.filter (has_cost c) items.
Proof.
  induction items as [|x l IH]; [done|].
  cbn [sorted_by_cost_reverse foldr]. rewrite insert_by_cost_stable.
  cbn [List.filter]. fold (sorted_by_cost_reverse l). by rewrite IH.
Qed.

Lemma _get_top_services_eq services top_n :
  _get_top_services services top_n = take top_n (sorted_by_cost_reverse services).
Proof.
  unfold _get_top_services.
  induction (take top_n (sorted_by_cost_reverse services)) as [|[service cost] l IH];
    [done|].
  cbn [fmap list_fmap] in *. by rewrite IH.
Qed.

(** The repository's test of [_get_top_services]. *)
Example test_get_top_services :
  _get_top_services
    [("EC2", lit 15000 2); ("RDS", lit 8000 2); ("S3", lit 2000 2); ("Lambda", lit 500 2);
     ("DynamoDB", lit 1500 2); ("CloudWatch", lit 300 2)]%string 3
  = [("EC2", lit 15000 2); ("RDS", lit 8000 2); ("S3", lit 2000 2)]%string.
Proof. by vm_compute. Qed.

(** Services of equal cost are ranked in the order of the dictionary. *)
Example ties_keep_dictionary_order :
  _get_top_services
    [("A", lit 150 0); ("B", lit 200 0); ("C", lit 150 0); ("D", lit 150 0)]%string 3
  = [("B", lit 200 0); ("A", lit 150 0); ("C", lit 150 0)]%string.
Proof. by vm_compute. Qed.

(** ** The output, in closed form *)

Lemma service_loop format_2f top recs :
  fold_left (service_step format_2f) top recs
  = recs ++ service_recommendations format_2f top.
Proof.
  revert recs. induction top as [|[service cost] top IH]; intros recs.
  - by rewrite app_nil_r.
  - cbn [fold_left]. rewrite IH. unfold service_recommendations.
    cbn [service_step List.filter over_100 snd].
    unfold over_100 at 2. cbn [snd].
    destruct (ltb (of_Z 100) cost); [|done].
    by rewrite <- app_assoc.
Qed.

Lemma generate_recommendations_eq str_float format_2f idle_resources service_costs :
  generate_recommendations str_float format_2f idle_resources service_costs
  = idle_recommendations str_float idle_resources
    ++ service_recommendations format_2f
         (take 3 (sorted_by_cost_reverse (default [] (services service_costs)))).
Proof.
  unfold generate_recommendations, idle_recommendations.
  set (top := take 3 _).
  destruct (non_empty idle_resources "ec2_stopped"),
    (non_empty idle_resources "ebs_unattached"),
    (non_empty idle_resources "eip_unassociated");
    cbn [app]; (destruct top eqn:E; [done|]); rewrite <- E; apply service_loop.
Qed.

Lemma non_empty_is_nil (idle_resources : gmap string (list (gmap string attr))) key :
  non_empty idle_resources key = negb (is_nil (get_list idle_resources key)).
Proof. unfold non_empty, get_list. by destruct (idle_resources !! key) as [[|]|]. Qed.

Lemma count_service_recommendations format_2f c top :
  count_category c (service_recommendations format_2f top)
  = if String.eqb "Cost Review" c then length (List.filter over_100 top) else 0%nat.
Proof.
  unfold service_recommendations, count_category.
  induction (List.filter over_100 top) as [|kv l IH]; cbn [fmap list_fmap List.filter].
  - by destruct (String.eqb _ c).
  - cbn [category service_recommendation]. destruct (String.eqb _ c); [|done].
    cbn [length]. by rewrite IH.
Qed.

Lemma filter_length_le {A} (f : A → bool) l : (length (List.filter f l) ≤ length l)%nat.
Proof. induction l as [|x l IH]; simpl; [done|]. destruct (f x); simpl; lia. Qed.

Lemma count_category_app c l1 l2 :
  count_category c (l1 ++ l2) = (count_category c l1 + count_category c l2)%nat.
Proof. unfold count_category. by rewrite List.filter_app, length_app. Qed.

(** ** The claims on the recommendations *)

(** C1, as stated, fails: [rds_stopped] and [elb_unused] are two of the
    five fixed categories, and no recommendation is made for them.  With
    one stopped database and nothing else the output is empty. *)
Lemma no_recommendation_for_rds :
  is_nil (get_list stopped_database_only "rds_stopped") = false
  ∧ ∀ str_float format_2f,
      generate_recommendations str_float format_2f stopped_database_only no_service_costs
      = [].
Proof. done. Qed.

(** C1 (amended). For every inventory, [generate_recommendations] emits
    exactly one recommendation for each of [ec2_stopped],
    [ebs_unattached] and [eip_unassociated] that is non-empty and none
    for one that is empty, plus at most 3 service-cost recommendations,
    and nothing else; what [rds_stopped] and [elb_unused] hold does not
    change the output. *)
Theorem recommendations_per_category str_float format_2f
    (idle_resources : gmap string (list (gmap string attr))) service_costs :
  let out := generate_recommendations str_float format_2f idle_resources service_costs in
  count_category "Idle Resources" out
  = b2n (negb (is_nil (get_list idle_resources "ec2_stopped")))
  ∧ count_category "Storage Optimization" out
    = b2n (negb (is_nil (get_list idle_resources "ebs_unattached")))
  ∧ count_category "Network Optimization" out
    = b2n (negb (is_nil (get_list idle_resources "eip_unassociated")))
  ∧ (count_category "Cost Review" out ≤ 3)%nat
  ∧ length out
    = (b2n (negb (is_nil (get_list idle_resources "ec2_stopped")))
       + b2n (negb (is_nil (get_list idle_resources "ebs_unattached")))
       + b2n (negb (is_nil (get_list idle_resources "eip_unassociated")))
       + count_category "Cost Review" out)%nat
  ∧ (∀ l, generate_recommendations str_float format_2f
            (<["rds_stopped"%string := l]> idle_resources) service_costs = out)
  ∧ (∀ l, generate_recommendations str_float format_2f
            (<["elb_unused"%string := l]> idle_resources) service_costs = out).
Proof.
  cbv zeta. rewrite generate_recommendations_eq, <- !non_empty_is_nil.
  set (top := take 3 _).
  assert (Htop : (length (List.filter over_100 top) ≤ 3)%nat).
  { etrans; [apply filter_length_le|]. unfold top. rewrite length_take. lia. }
  rewrite !count_category_app, !count_service_recommendations, length_app.
  unfold service_recommendations at 1. rewrite length_fmap.
  unfold idle_recommendations.
  repeat split.
  1-5: destruct (non_empty idle_resources "ec2_stopped"),
         (non_empty idle_resources "ebs_unattached"),
         (non_empty idle_resources "eip_unassociated"); cbn; lia.
  - intros l. rewrite generate_recommendations_eq. fold top. f_equal.
    unfold idle_recommendations, non_empty, get_list.
    by rewrite !lookup_insert_ne.
  - intros l. rewrite generate_recommendations_eq. fold top. f_equal.
    unfold idle_recommendations, non_empty, get_list.
    by rewrite !lookup_insert_ne.
Qed.

(** C2. The service items are ranked by the stable descending sort: the
    ranking is a permutation of the items, no item is cheaper than a later
    one, and items of equal cost keep the order of the dictionary.  After
    the recommendations of the idle resources, the output holds one
    MEDIUM "Cost Review" recommendation for each of the first 3 ranked
    services whose cost is greater than 100, in ranking order, and none
    for a service at or below 100.  For [{EC2: 150, RDS: 80, S3: 20}] and
    nothing idle the output is the one recommendation for EC2. *)
Theorem cost_review_recommendations str_float format_2f
    (idle_resources : gmap string (list (gmap string attr))) service_costs :
  no_nan (default [] (services service_costs)) →
  sorted_by_cost_reverse (default [] (services service_costs))
    ≡ₚ default [] (services service_costs)
  ∧ StronglySorted cost_ge (sorted_by_cost_reverse (default [] (services service_costs)))
  ∧ (∀ c, List.filter (has_cost c)
            (sorted_by_cost_reverse (default [] (services service_costs)))
          = List.filter (has_cost c) (default [] (services service_costs)))
  ∧ generate_recommendations str_float format_2f idle_resources service_costs
    = idle_recommendations str_float idle_resources
      ++ ((λ kv, service_recommendation format_2f kv.1 kv.2)
            <$> List.filter over_100
                  (take 3 (sorted_by_cost_reverse (default [] (services service_costs)))))
  ∧ take 3 (sorted_by_cost_reverse (default [] (services service_costs)))
    = _get_top_services (default [] (services service_costs)) 3
  ∧ (∀ service cost,
       priority (service_recommendation format_2f service cost) = "MEDIUM"%string
       ∧ category (service_recommendation format_2f service cost) = "Cost Review"%string)
  ∧ generate_recommendations str_float format_2f nothing_idle example_costs
    = [service_recommendation format_2f "EC2" (lit 150 0)].
Proof.
  intros Hnan. split; [apply sorted_by_cost_reverse_Permutation|].
  split; [by apply sorted_by_cost_reverse_sorted|].
  split; [intros c; apply sorted_by_cost_reverse_stable|].
  split; [apply generate_recommendations_eq|].
  split; [by rewrite _get_top_services_eq|].
  split; [done|]. by vm_compute.
Qed.

Lemma cost_review_recommendations_witness :
  sorted_by_cost_reverse (default [] (services example_costs))
    ≡ₚ default [] (services example_costs)
  ∧ StronglySorted cost_ge (sorted_by_cost_reverse (default [] (services example_costs)))
  ∧ (∀ c, List.filter (has_cost c)
            (sorted_by_cost_reverse (default [] (services example_costs)))
          = List.filter (has_cost c) (default [] (services example_costs)))
  ∧ generate_recommendations no_digits no_digits example_inventory example_costs
    = idle_recommendations no_digits example_inventory
      ++ ((λ kv, service_recommendation no_digits kv.1 kv.2)
            <$> List.filter over_100
                  (take 3 (sorted_by_cost_reverse (default [] (services example_costs)))))
  ∧ take 3 (sorted_by_cost_reverse (default [] (services example_costs)))
    = _get_top_services (default [] (services example_costs)) 3
  ∧ (∀ service cost,
       priority (service_recommendation no_digits service cost) = "MEDIUM"%string
       ∧ category (service_recommendation no_digits service cost) = "Cost Review"%string)
  ∧ generate_recommendations no_digits no_digits nothing_idle example_costs
    = [service_recommendation no_digits "EC2" (lit 150 0)].
Proof.
  apply (cost_review_recommendations no_digits no_digits example_inventory example_costs).
  repeat constructor.
Defined.

End Recommendations.

(** * The trend *)

Section Trends.

Import PyFloat.

#[local] Arguments sub : simpl never.
#[local] Arguments mul : simpl never.
#[local] Arguments div : simpl never.
#[local] Arguments of_Z : simpl never.
#[local] Arguments lit : simpl never.
#[local] Arguments round : simpl never.

(** The deltas never raise: the division runs on a positive divisor only. *)
Lemma cost_trend_returns current_cost prev_cost :
  ∃ t, cost_trend current_cost prev_cost = Return t.
Proof.
  unfold cost_trend. destruct (ltb (of_Z 0) prev_cost) eqn:Hp; [|by eexists].
  unfold truediv. destruct prev_cost as [| | |]; try done; by eexists.
Qed.

(** C6. When the previous period's cost is obtained, the [trend] of the
    result is ["increasing"] if and only if [current - previous > 0], and
    ["decreasing"] otherwise; a delta of zero gives ["decreasing"]. *)
Theorem trend_classification self current_cost start_date end_date prev_cost :
  previous_cost self start_date end_date = Return prev_cost →
  ∃ t, get_cost_trends self current_cost start_date end_date = Trend t
    ∧ cost_trend current_cost prev_cost = Return t
    ∧ delta_absolute t = round (sub current_cost prev_cost) 2
    ∧ (trend t = "increasing"%string ↔ ltb zero (sub current_cost prev_cost) = true)
    ∧ (trend t = "decreasing"%string ↔ ltb zero (sub current_cost prev_cost) = false)
    ∧ (eqb (sub current_cost prev_cost) zero = true → trend t = "decreasing"%string).
Proof.
  intros Hprev. unfold get_cost_trends. rewrite Hprev. cbn [mbind outcome_bind].
  destruct (cost_trend_returns current_cost prev_cost) as [t Ht]. rewrite Ht.
  exists t. split; [done|]. split; [done|].
  unfold cost_trend in Ht.
  destruct (if ltb (of_Z 0) prev_cost then _ else _) as [p|]; [|done].
  cbn [mbind outcome_bind] in Ht. injection Ht as <-. cbn [trend delta_absolute].
  change (of_Z 0) with zero.
  destruct (ltb zero (sub current_cost prev_cost)) eqn:Hd.
  - repeat split; try done.
    intros He. by destruct (sub current_cost prev_cost) as [[]|[]| |[]].
  - repeat split; done.
Qed.

Lemma trend_classification_witness :
  ∃ t, get_cost_trends (flat_client [Return (lit 20000 2)]) (lit 24532 2) (Some 31) (Some 34)
       = Trend t
    ∧ cost_trend (lit 24532 2) (lit 20000 2) = Return t
    ∧ delta_absolute t = round (sub (lit 24532 2) (lit 20000 2)) 2
    ∧ (trend t = "increasing"%string ↔ ltb zero (sub (lit 24532 2) (lit 20000 2)) = true)
    ∧ (trend t = "decreasing"%string ↔ ltb zero (sub (lit 24532 2) (lit 20000 2)) = false)
    ∧ (eqb (sub (lit 24532 2) (lit 20000 2)) zero = true → trend t = "decreasing"%string).
Proof.
  apply (trend_classification (flat_client [Return (lit 20000 2)]) (lit 24532 2)
           (Some 31) (Some 34) (lit 20000 2)).
  reflexivity.
Defined.

(** The repository's test of [get_cost_trends], with the percentage the
    specification gives: 245.32 against 200.00. *)
Example test_get_cost_trends :
  get_cost_trends (flat_client [Return (lit 20000 2)]) (lit 24532 2) (Some 31) (Some 34)
  = Trend {| current_period := lit 24532 2;
             previous_period := lit 20000 2;
             delta_absolute := lit 4532 2;
             delta_percent := PyFlt (lit 2266 2);
             trend := "increasing" |}.
Proof. by vm_compute. Qed.

(** C7. When the previous period's cost is zero, the division is not
    run: the deltas raise nothing, the full trend is returned, and its
    [delta_percent] is the integer [0]. *)
Theorem zero_prior_gives_zero_percent self current_cost start_date end_date prev_cost :
  previous_cost self start_date end_date = Return prev_cost →
  eqb prev_cost zero = true →
  ∃ t, get_cost_trends self current_cost start_date end_date = Trend t
    ∧ delta_percent t = PyInt 0
    ∧ cost_trend current_cost prev_cost = Return t.
Proof.
  intros Hprev Hz. unfold get_cost_trends. rewrite Hprev. cbn [mbind outcome_bind].
  unfold cost_trend.
  assert (Hp : ltb (of_Z 0) prev_cost = false) by (by destruct prev_cost as [[]|[]| |[]]).
  rewrite Hp. cbn [mbind outcome_bind]. eexists. done.
Qed.

Lemma zero_prior_gives_zero_percent_witness :
  ∃ t, get_cost_trends (flat_client []) (lit 24532 2) (Some 31) (Some 34) = Trend t
    ∧ delta_percent t = PyInt 0
    ∧ cost_trend (lit 24532 2) zero = Return t.
Proof.
  apply (zero_prior_gives_zero_percent (flat_client []) (lit 24532 2) (Some 31) (Some 34) zero);
    reflexivity.
Defined.

(** C8. When the previous period's cost cannot be obtained, whatever was
    raised, [get_cost_trends] raises nothing and returns the dictionary
    with [current_period], rounded to 2 decimals, and the [error]
    message. *)
Theorem trend_degrades_on_failure self current_cost start_date end_date e :
  previous_cost self start_date end_date = Raise e →
  get_cost_trends self current_cost start_date end_date
  = TrendError (round current_cost 2) "Unable to calculate trend data".
Proof. intros Hprev. unfold get_cost_trends. by rewrite Hprev. Qed.

Lemma trend_degrades_on_failure_witness :
  get_cost_trends failing_client (lit 24532 2) (Some 31) (Some 34)
  = TrendError (round (lit 24532 2) 2) "Unable to calculate trend data".
Proof.
  apply (trend_degrades_on_failure failing_client (lit 24532 2) (Some 31) (Some 34)
           ClientError).
  reflexivity.
Defined.

End Trends.

(** * The report *)

Section ReportFacts.

Import PyFloat.

#[local] Arguments lit : simpl never.

Lemma scan_all_resources_dom ec2 ebs eip rds elb :
  dom (scan_all_resources ec2 ebs eip rds elb) = fixed_categories.
Proof.
  unfold scan_all_resources, fixed_categories.
  cbn [list_to_map foldr]. rewrite !dom_insert_L, dom_empty_L.
  apply set_eq. intros key.
  rewrite !elem_of_union, !elem_of_singleton, elem_of_empty. tauto.
Qed.

Lemma count_idle_delete (inventory : gmap string (list (gmap string attr))) key :
  count_idle inventory
  = (length (get_list inventory key) + count_idle (delete key inventory))%nat.
Proof.
  unfold count_idle, get_list. destruct (inventory !! key) as [l|] eqn:E.
  - rewrite (map_fold_delete_L _ _ key l) at 1; [done| |done]. intros. lia.
  - by rewrite delete_id.
Qed.

Lemma count_idle_fixed (inventory : gmap string (list (gmap string attr))) :
  dom inventory = fixed_categories →
  count_idle inventory
  = (length (get_list inventory "ec2_stopped")
     + length (get_list inventory "ebs_unattached")
     + length (get_list inventory "eip_unassociated")
     + length (get_list inventory "rds_stopped")
     + length (get_list inventory "elb_unused"))%nat.
Proof.
  intros Hdom.
  rewrite (count_idle_delete _ "ec2_stopped"), (count_idle_delete _ "ebs_unattached"),
    (count_idle_delete _ "eip_unassociated"), (count_idle_delete _ "rds_stopped"),
    (count_idle_delete _ "elb_unused").
  set (rest := delete "elb_unused"%string _).
  assert (Hrest : rest = ∅).
  { apply dom_empty_iff_L. unfold rest. rewrite !dom_delete_L, Hdom.
    unfold fixed_categories. apply set_eq. intros key.
    rewrite !elem_of_difference, !elem_of_union, !elem_of_singleton, elem_of_empty.
    tauto. }
  rewrite Hrest. unfold get_list. rewrite !lookup_delete_ne by done.
  unfold count_idle. rewrite map_fold_empty. lia.
Qed.

(** C9. For every inventory with the five fixed keys, a report that is
    built carries that inventory, and its [idle_resources_count] is the
    sum of the lengths of the five lists; the report is built whenever
    the estimate is returned, and carries that estimate. *)
Theorem report_counts_idle_resources str_float format_2f now end_date ENVIRONMENT
    cost_data service_costs (inventory : gmap string (list (gmap string attr)))
    cost_trends :
  dom inventory = fixed_categories →
  (∀ report,
     build_report str_float format_2f now end_date ENVIRONMENT cost_data service_costs
       inventory cost_trends = Return report →
     idle_resources_count (summary report)
     = (length (get_list inventory "ec2_stopped")
        + length (get_list inventory "ebs_unattached")
        + length (get_list inventory "eip_unassociated")
        + length (get_list inventory "rds_stopped")
        + length (get_list inventory "elb_unused"))%nat
     ∧ idle_resources report = inventory)
  ∧ (∀ savings,
       calculate_potential_savings inventory = Return savings →
       ∃ report,
         build_report str_float format_2f now end_date ENVIRONMENT cost_data service_costs
           inventory cost_trends = Return report
         ∧ potential_savings (summary report) = savings).
Proof.
  intros Hdom. unfold build_report. split.
  - intros report. destruct (calculate_potential_savings inventory) as [savings|e]; [|done].
    cbn [mbind outcome_bind]. intros [= <-]. cbn [summary idle_resources_count].
    by rewrite count_idle_fixed.
  - intros savings ->. cbn [mbind outcome_bind]. by eexists.
Qed.

Lemma report_counts_idle_resources_witness :
  (∀ report,
     build_report no_digits no_digits "2025-02-04T06:00:00" "2025-02-04" "dev"
       example_cost_data example_costs example_inventory
       (TrendError (lit 24532 2) "Unable to calculate trend data") = Return report →
     idle_resources_count (summary report)
     = (length (get_list example_inventory "ec2_stopped")
        + length (get_list example_inventory "ebs_unattached")
        + length (get_list example_inventory "eip_unassociated")
        + length (get_list example_inventory "rds_stopped")
        + length (get_list example_inventory "elb_unused"))%nat
     ∧ idle_resources report = example_inventory)
  ∧ (∀ savings,
       calculate_potential_savings example_inventory = Return savings →
       ∃ report,
         build_report no_digits no_digits "2025-02-04T06:00:00" "2025-02-04" "dev"
           example_cost_data example_costs example_inventory
           (TrendError (lit 24532 2) "Unable to calculate trend data") = Return report
         ∧ potential_savings (summary report) = savings).
Proof.
  apply (report_counts_idle_resources no_digits no_digits "2025-02-04T06:00:00"
           "2025-02-04" "dev" example_cost_data example_costs example_inventory
           (TrendError (lit 24532 2) "Unable to calculate trend data")).
  apply scan_all_resources_dom.
Defined.

(** The sample report: three idle resources, [41.65] of savings. *)
Example example_report :
  ∃ report,
    build_report no_digits no_digits "2025-02-04T06:00:00" "2025-02-04" "dev"
      example_cost_data example_costs example_inventory
      (TrendError (lit 24532 2) "Unable to calculate trend data") = Return report
    ∧ idle_resources_count (summary report) = 3%nat
    ∧ potential_savings (summary report) = lit 4165 2.
Proof. eexists. by vm_compute. Qed.

End ReportFacts.
